(** * chaoslib: the activity executor and its orchestration

    A shallow embedding of [chaoslib/activity.py] (validation of an
    activity, the lazy iteration over the method, the execution of one
    activity around its provider) and of the parts of the orchestrator and
    of the control registry that the specification describes.

    Python dictionaries are finite maps from strings to dynamically typed
    values; exceptions are results; time, logging, sleeping and the calls
    to providers and control hooks are threaded through an explicit world. *)

From stdpp Require Import gmap strings list fin_maps pretty.
From Stdlib Require Import ZArith Lia Ascii.

#[local] Set Warnings "-register-all".
#[local] Open Scope string_scope.
#[local] Open Scope list_scope.
#[local] Open Scope Z_scope.

(** ** Python values *)

Module Py.

(** The JSON-like values an experiment document is made of.  Numbers are
    integers (seconds, status codes); Python's [bool] is a number too. *)
Inductive value :=
| VNone
| VBool (b : bool)
| VNum (n : Z)
| VStr (s : string)
| VList (l : list value)
| VDict (d : gmap string value).

(** [bool(v)]: the truth value Python's [if v:] and [not v] look at. *)
Definition truthy (v : value) : bool :=
  match v with
  | VNone => false
  | VBool b => b
  | VNum n => negb (n =? 0)
  | VStr s => negb (String.eqb s "")
  | VList l => match l with [] => false | _ :: _ => true end
  | VDict d => negb (bool_decide (d = ∅))
  end.

(** [v is not None] *)
Definition is_not_none (v : value) : bool :=
  match v with VNone => false | _ => true end.

(** [isinstance(v, str)] *)
Definition isinstance_str (v : value) : bool :=
  match v with VStr _ => true | _ => false end.

(** [isinstance(v, bool)] *)
Definition isinstance_bool (v : value) : bool :=
  match v with VBool _ => true | _ => false end.

(** [isinstance(v, numbers.Number)]: [bool] is a subclass of [int]. *)
Definition isinstance_number (v : value) : bool :=
  match v with VNum _ | VBool _ => true | _ => false end.

(** [v == s] for a string literal [s]. *)
Definition eq_str (v : value) (s : string) : bool :=
  match v with VStr s' => String.eqb s' s | _ => false end.

(** [v in (s1, s2, ...)] for a tuple of string literals. *)
Definition in_strs (v : value) (ss : list string) : bool :=
  existsb (eq_str v) ss.

(** [d.get(k)] on a dictionary: [None] when the key is absent. *)
Definition dict_get (d : gmap string value) (k : string) : value :=
  default VNone (d !! k).

(** [d.get(k, dflt)] *)
Definition dict_get_default (d : gmap string value) (k : string)
    (dflt : value) : value :=
  default dflt (d !! k).

(** Exceptions.  A chaoslib exception keeps the message template and the
    values formatted into it. *)
Inductive exn :=
| ActivityFailed (msg : string) (args : list value)
| InvalidActivity (msg : string) (args : list value)
| InvalidExperiment (msg : string)
| InterruptExecution (msg : string)
| KeyboardInterrupt
| SystemExit
| AttributeError (attr : string)
| KeyError (key : string)
| TypeError
| ValueError
| OtherError (name : string).

Definition is_ActivityFailed (e : exn) : bool :=
  match e with ActivityFailed _ _ => true | _ => false end.

Definition is_InvalidActivity (e : exn) : bool :=
  match e with InvalidActivity _ _ => true | _ => false end.

(** The result of a call: a value or a raised exception. *)
Inductive outcome (A : Type) :=
| Returned (a : A)
| Raised (e : exn).
Arguments Returned {A} a.
Arguments Raised {A} e.

#[export] Instance outcome_ret : MRet outcome := @Returned.
#[export] Instance outcome_bind : MBind outcome := fun A B k m =>
  match m with
  | Returned a => k a
  | Raised e => Raised e
  end.

(** [if cond: raise e] *)
Definition raise_when (cond : bool) (e : exn) : outcome unit :=
  if cond then Raised e else Returned tt.

(** [v.get(k)] on any value: only dictionaries have a [get]. *)
Definition py_get (v : value) (k : string) : outcome value :=
  match v with
  | VDict d => Returned (dict_get d k)
  | _ => Raised (AttributeError "get")
  end.

(** The one-character strings a [for] loop over a string yields. *)
Fixpoint chars (s : string) : list value :=
  match s with
  | EmptyString => []
  | String c s' => VStr (String c "") :: chars s'
  end.

(** [for x in v]: the items a [for] loop walks over. *)
Definition py_iter (v : value) : outcome (list value) :=
  match v with
  | VList l => Returned l
  | VDict d => Returned (VStr <$> (map_to_list d).*1)
  | VStr s => Returned (chars s)
  | VNone | VBool _ | VNum _ => Raised TypeError
  end.

(** [s.title()] on ASCII letters: a letter that follows a letter is
    lowered, any other letter is raised. *)
Definition is_upper (c : ascii) : bool :=
  let n := nat_of_ascii c in (65 <=? n)%nat && (n <=? 90)%nat.
Definition is_lower (c : ascii) : bool :=
  let n := nat_of_ascii c in (97 <=? n)%nat && (n <=? 122)%nat.
Definition to_upper (c : ascii) : ascii :=
  if is_lower c then ascii_of_nat (nat_of_ascii c - 32)%nat else c.
Definition to_lower (c : ascii) : ascii :=
  if is_upper c then ascii_of_nat (nat_of_ascii c + 32)%nat else c.

Fixpoint title_from (after_letter : bool) (s : string) : string :=
  match s with
  | EmptyString => EmptyString
  | String c s' =>
      if is_upper c || is_lower c
      then String (if after_letter then to_lower c else to_upper c)
                  (title_from true s')
      else String c (title_from false s')
  end.

Definition title (s : string) : string := title_from false s.

(** [v.title()] *)
Definition py_title (v : value) : outcome value :=
  match v with
  | VStr s => Returned (VStr (title s))
  | _ => Raised (AttributeError "title")
  end.

#[global] Arguments in_strs : simpl never.
#[global] Arguments dict_get : simpl never.
#[global] Arguments dict_get_default : simpl never.

End Py.
Export Py.

(** The document types of [chaoslib.types]: all are dictionaries. *)
Abbreviation Activity := (gmap string value).
Abbreviation Experiment := (gmap string value).
Abbreviation Run := (gmap string value).

(** ** Validation of one activity *)

Module Validation.
Section Validation.

(** The provider validators live in [chaoslib.provider]; they read the
    activity and either return or raise. *)
Variable validate_python_activity : Activity -> outcome unit.
Variable validate_process_activity : Activity -> outcome unit.
Variable validate_http_activity : Activity -> outcome unit.

(** Lines 65-71: the provider must name one of the three provider types. *)
Definition check_provider_type (provider : value) : outcome value :=
  provider_type ← py_get provider "type";
  raise_when (negb (truthy provider_type))
    (InvalidActivity "a provider must have a type" []);;
  raise_when (negb (in_strs provider_type ["python"; "process"; "http"]))
    (InvalidActivity "unknown provider type '{type}'" [provider_type]);;
  mret provider_type.

(** Lines 73-99: the fields every provider shares, then the validator of
    the provider itself. *)
Definition check_declared_fields (activity : Activity)
    (provider_type : value) : outcome unit :=
  raise_when (negb (truthy (dict_get activity "name")))
    (InvalidActivity "activity must have a name (cannot be empty)" []);;
  let timeout := dict_get activity "timeout" in
  raise_when (is_not_none timeout && negb (isinstance_number timeout))
    (InvalidActivity "activity timeout must be a number" []);;
  let pauses := dict_get activity "pauses" in
  (if is_not_none pauses then
     before ← py_get pauses "before";
     raise_when (is_not_none before && negb (isinstance_number before))
       (InvalidActivity "activity before pause must be a number" []);;
     after ← py_get pauses "after";
     raise_when (is_not_none after && negb (isinstance_number after))
       (InvalidActivity "activity after pause must be a number" [])
   else Returned tt);;
  (match activity !! "background" with
   | Some background =>
       raise_when (negb (isinstance_bool background))
         (InvalidActivity "activity background must be a boolean" [])
   | None => Returned tt
   end);;
  if eq_str provider_type "python" then validate_python_activity activity
  else if eq_str provider_type "process"
       then validate_process_activity activity
  else if eq_str provider_type "http" then validate_http_activity activity
  else Returned tt.

(** [ensure_activity_is_valid] (lines 26-99). *)
Definition ensure_activity_is_valid (activity : Activity) : outcome unit :=
  raise_when (negb (truthy (VDict activity)))
    (InvalidActivity "empty activity is no activity" []);;
  (* when the activity is just a ref, there is little to validate *)
  let ref := dict_get activity "ref" in
  if is_not_none ref then
    raise_when (negb (isinstance_str ref) || eq_str ref "")
      (InvalidActivity "reference to activity must be non-empty strings" [])
  else
    let activity_type := dict_get activity "type" in
    raise_when (negb (truthy activity_type))
      (InvalidActivity "an activity must have a type" []);;
    raise_when (negb (in_strs activity_type ["probe"; "action"]))
      (InvalidActivity "'{t}' is not a supported activity type"
         [activity_type]);;
    raise_when (negb (truthy (dict_get activity "name")))
      (InvalidActivity "an activity must have a name" []);;
    let provider := dict_get activity "provider" in
    raise_when (negb (truthy provider))
      (InvalidActivity "an activity requires a provider" []);;
    provider_type ← check_provider_type provider;
    check_declared_fields activity provider_type.

End Validation.
End Validation.

(** ** The world the executor runs in *)

Inductive log_level := Debug | Info | Warn | Error | Fatal.

(** What the executor does to the outside, in the order it does it. *)
Inductive event :=
| EvLog (level : log_level) (template : string) (args : list value)
| EvSleep (seconds : Z)
| EvUtcnow (t : Z)
| EvProvider (kind : string) (activity : Activity) (took : N)
| EvControlsEnter (level : string) (took : N)
| EvControlsExit (level : string) (state : option value) (took : N)
| EvControlsInit (took : N)
| EvControlsCleanup (took : N)
| EvSubmit (activity : Activity).

Definition is_sleep (ev : event) : bool :=
  match ev with EvSleep _ => true | _ => false end.
Definition is_provider (ev : event) : bool :=
  match ev with EvProvider _ _ _ => true | _ => false end.
Definition is_log (ev : event) : bool :=
  match ev with EvLog _ _ _ => true | _ => false end.
Definition is_controls (ev : event) : bool :=
  match ev with
  | EvControlsEnter _ _ | EvControlsExit _ _ _ | EvControlsInit _
  | EvControlsCleanup _ => true
  | _ => false
  end.

(** The seconds an event takes on the clock. *)
Definition event_time (ev : event) : Z :=
  match ev with
  | EvSleep n => n
  | EvProvider _ _ took | EvControlsEnter _ took | EvControlsExit _ _ took
  | EvControlsInit took | EvControlsCleanup took =>
      Z.of_N took
  | EvLog _ _ _ | EvUtcnow _ | EvSubmit _ => 0
  end.

Definition trace_time (evs : list event) : Z :=
  foldr (fun ev acc => event_time ev + acc) 0 evs.

(** [background] as the data model has it: absent, or a boolean. *)
Definition background_typed (activity : Activity) : bool :=
  match activity !! "background" with
  | None | Some (VBool _) => true
  | Some _ => false
  end.

(** "an activity whose background field is true" *)
Definition in_background (activity : Activity) : bool :=
  match activity !! "background" with
  | Some (VBool true) => true
  | _ => false
  end.

(** [concurrent.futures.ThreadPoolExecutor] *)
Record executor := ThreadPoolExecutor { max_workers : nat }.

Module Executor.
Section Executor.

(** [E] is the state of everything the runner talks to and does not own:
    the target system, the user's modules, the objects the hooks keep. *)
Context {E : Type}.

(** The clock (in seconds), the outside, and the events so far. *)
Record world := World { now : Z; env : E; trace : list event }.

(** An external call (a provider, a control hook) sees the outside and the
    clock; it answers with a result, a new outside and the time it took.
    It cannot sleep on the runner's behalf nor write the runner's trace. *)
Record reply (A : Type) :=
  Reply { result : outcome A; env_after : E; elapsed : N }.
Arguments Reply {A} result env_after elapsed.
Arguments result {A} r.
Arguments env_after {A} r.
Arguments elapsed {A} r.

Definition external (A : Type) : Type := E -> Z -> reply A.

(** A computation of the runner. *)
Definition M (A : Type) : Type := world -> outcome A * world.

#[export] Instance M_ret : MRet M := fun A a w => (Returned a, w).
#[export] Instance M_bind : MBind M := fun A B k m w =>
  match m w with
  | (Returned a, w') => k a w'
  | (Raised e, w') => (Raised e, w')
  end.

Definition lift {A} (o : outcome A) : M A := fun w => (o, w).
Definition raise {A} (e : exn) : M A := fun w => (Raised e, w).

Definition emit (ev : event) : M unit := fun w =>
  (Returned tt, World (now w) (env w) (trace w ++ [ev])).

Definition call {A} (ev : N -> event) (f : external A) : M A := fun w =>
  let r := f (env w) (now w) in
  (result r,
   World (now w + Z.of_N (elapsed r)) (env_after r)
     (trace w ++ [ev (elapsed r)])).

(** [logger.debug], [logger.info], ...: the template and what is formatted
    into it. *)
Definition logger (level : log_level) (template : string)
    (args : list value) : M unit :=
  emit (EvLog level template args).

(** [datetime.utcnow()]: reading the clock always answers. *)
Definition read_clock (w : world) : Z * world :=
  (now w, World (now w) (env w) (trace w ++ [EvUtcnow (now w)])).

Definition utcnow : M Z := fun w =>
  let '(t, w) := read_clock w in (Returned t, w).

(** [time.sleep(secs)]: a number of seconds that is not negative. *)
Definition sleep_seconds (secs : value) : outcome Z :=
  match secs with
  | VNum n => if n <? 0 then Raised ValueError else Returned n
  | VBool b => Returned (if b then 1 else 0)
  | _ => Raised TypeError
  end.

Definition time_sleep (secs : value) : M unit := fun w =>
  match sleep_seconds secs with
  | Returned n =>
      (Returned tt, World (now w + n) (env w) (trace w ++ [EvSleep n]))
  | Raised e => (Raised e, w)
  end.

(** [v[k]] for a string key. *)
Definition py_getitem (v : value) (k : string) : outcome value :=
  match v with
  | VDict d =>
      match d !! k with
      | Some x => Returned x
      | None => Raised (KeyError k)
      end
  | _ => Raised TypeError
  end.

(** [except Exception] does not catch the two exit signals. *)
Definition is_Exception (e : exn) : bool :=
  match e with
  | KeyboardInterrupt | SystemExit => false
  | _ => true
  end.

(** The context manager [chaoslib.control.controls] hands back: entering
    runs the before hooks, which may rewrite the context they are given;
    leaving runs the after hooks, on the context as it then is and on the
    state set by [with_state], which they may rewrite as well.  It does
    not swallow an exception of the block it wraps. *)
Record control_manager := ControlManager {
  cm_enter : external Activity;
  cm_exit : Activity -> Run -> external Run;
  cm_exit_raising : Activity -> exn -> external unit
}.

(** Collaborators of [chaoslib.activity] that live in other modules. *)
Variable lookup_activity : value -> option Activity.
Variable controls :
  string -> Experiment -> Activity -> value -> value -> control_manager.
Variable run_python_activity : Activity -> value -> value -> external value.
Variable run_process_activity : Activity -> value -> value -> external value.
Variable run_http_activity : Activity -> value -> value -> external value.
(** [datetime.isoformat] and [traceback.format_exception] *)
Variable isoformat : Z -> string.
Variable format_exception : exn -> value.

(** The [try] block of [run_activity]: [None] when no branch bound
    [result]. *)
Definition run_activity_try (activity : Activity)
    (configuration secrets : value) : M (option value) :=
  provider ← lift (py_getitem (VDict activity) "provider");
  activity_type ← lift (py_getitem provider "type");
  if eq_str activity_type "python" then
    result ← call (EvProvider "python" activity)
               (run_python_activity activity configuration secrets);
    mret (Some result)
  else if eq_str activity_type "process" then
    result ← call (EvProvider "process" activity)
               (run_process_activity activity configuration secrets);
    mret (Some result)
  else if eq_str activity_type "http" then
    result ← call (EvProvider "http" activity)
               (run_http_activity activity configuration secrets);
    mret (Some result)
  else mret None.

(** [run_activity] (lines 205-233): dispatch on the provider's type. *)
Definition run_activity (activity : Activity) (configuration secrets : value)
    : M value := fun w =>
  match run_activity_try activity configuration secrets w with
  | (Raised e, w1) =>
      if is_Exception e then
        (* just make sure we have a full traceback *)
        (Raised e, snd (logger Debug "Activity failed" [] w1))
      else (Raised e, w1)
  | (Returned (Some result), w1) => (Returned result, w1)
  | (Returned None, w1) =>
      (* [return result] with [result] never bound *)
      (Raised (OtherError "UnboundLocalError"), w1)
  end.

(** [str(x)] as it is logged: the template and its arguments. *)
Definition exn_message (x : exn) : list value :=
  match x with
  | ActivityFailed msg args | InvalidActivity msg args => VStr msg :: args
  | InterruptExecution msg | InvalidExperiment msg => [VStr msg]
  | KeyError k | AttributeError k | OtherError k => [VStr k]
  | KeyboardInterrupt | SystemExit | TypeError | ValueError => []
  end.

(** Lines 135-140 of [execute_activity]: a reference is looked up in the
    document-wide index of activities. *)
Definition resolve (activity : Activity) : outcome Activity :=
  let ref := dict_get activity "ref" in
  if truthy ref then
    match lookup_activity ref with
    | Some found =>
        if truthy (VDict found) then Returned found
        else Raised (ActivityFailed
                       "could not find referenced activity '{r}'" [ref])
    | None =>
        Raised (ActivityFailed
                  "could not find referenced activity '{r}'" [ref])
    end
  else Returned activity.

(** Lines 144-151: the pause before the activity. *)
Definition pause_before (pauses : value) (dry : bool) : M unit :=
  pause_before ← lift (py_get pauses "before");
  if truthy pause_before then
    logger Info "Pausing before next activity for {d}s..." [pause_before];;
    (* only pause when not in dry-mode *)
    if negb dry then time_sleep pause_before else mret tt
  else mret tt.

(** Lines 153-158: the activity is announced in the log. *)
Definition announce (activity : Activity) : M unit :=
  if truthy (dict_get activity "background") then
    t ← lift (py_getitem (VDict activity) "type" ≫= py_title);
    logger Info "{t}: {n} [in background]" [t; dict_get activity "name"]
  else
    t ← lift (py_getitem (VDict activity) "type" ≫= py_title);
    logger Info "{t}: {n}" [t; dict_get activity "name"].

(** Lines 169-184: the [try] block and its [except ActivityFailed] clause.
    They work on the local dictionary [run]; the answer is that dictionary
    as they leave it, and the exception that is still on its way out, if
    any. *)
Definition try_except (activity : Activity) (configuration secrets : value)
    (dry : bool) (run : Run) : world -> (Run * option exn) * world := fun w =>
  (* only run the activity itself when not in dry-mode *)
  match (if negb dry then run_activity activity configuration secrets
         else mret VNone) w with
  | (Returned result, w) =>
      let run :=
        <["status" := VStr "succeeded"]> (<["output" := result]> run) in
      ((run, None),
       snd ((if is_not_none result
             then logger Debug "  => succeeded with '{r}'" [result]
             else logger Debug "  => succeeded without any result value" [])
              w))
  | (Raised x, w) =>
      if is_ActivityFailed x then
        let result := VNone in
        let run :=
          <["exception" := format_exception x]>
            (<["output" := result]> (<["status" := VStr "failed"]> run)) in
        ((run, None),
         snd (logger Error "  => failed: {x}" (exn_message x) w))
      else ((run, Some x), w)
  end.

(** Lines 192-198: the pause after the activity. *)
Definition pause_after (pauses : value) (interrupted dry : bool) : M unit :=
  pause_after ← lift (py_get pauses "after");
  if truthy pause_after && negb interrupted then
    logger Info "Pausing after activity for {d}s..." [pause_after];;
    (* only pause when not in dry-mode *)
    if negb dry then time_sleep pause_after else mret tt
  else mret tt.

(** Lines 167-198: the whole [try] / [except] / [finally] statement.  An
    exception raised by the [finally] clause replaces the one on its way. *)
Definition try_activity (activity : Activity) (configuration secrets : value)
    (dry : bool) (pauses : value) (start : Z) (run : Run)
    : world -> (Run * option exn) * world := fun w =>
  let interrupted := false in
  let '((run, pending), w) :=
    try_except activity configuration secrets dry run w in
  (* finally: capture the end time before we pause *)
  let '(end_, w) := read_clock w in
  let run :=
    <["duration" := VNum (end_ - start)]>
      (<["end" := VStr (isoformat end_)]>
         (<["start" := VStr (isoformat start)]> run)) in
  match pause_after pauses interrupted dry w with
  | (Returned _, w) => ((run, pending), w)
  | (Raised e, w) => ((run, Some e), w)
  end.

(** Leaving the [try] statement: an exception still on its way out skips
    the rest of the block. *)
Definition leave_try (statement : world -> (Run * option exn) * world)
    : M Run := fun w =>
  match statement w with
  | ((run, None), w) => (Returned run, w)
  | ((_, Some e), w) => (Raised e, w)
  end.

(** Lines 144-200: the block under [with controls(...) as control].  A
    returned run is the one handed to [control.with_state]. *)
Definition execute_activity_block (activity : Activity)
    (configuration secrets : value) (dry : bool) : M Run :=
  let pauses := dict_get_default activity "pauses" (VDict ∅) in
  pause_before pauses dry;;
  announce activity;;
  start ← utcnow;
  let run : Run := <["output" := VNone]> {["activity" := VDict activity]} in
  leave_try (try_activity activity configuration secrets dry pauses start run).

(** [execute_activity] (lines 127-202). *)
Definition execute_activity (experiment : Experiment) (activity : Activity)
    (configuration secrets : value) (dry : bool) : M Run := fun w =>
  match resolve activity with
  | Raised e => (Raised e, w)
  | Returned activity =>
      let control :=
        controls "activity" experiment activity configuration secrets in
      match call (EvControlsEnter "activity") (cm_enter control) w with
      | (Raised e, w) => (Raised e, w)
      | (Returned activity, w) =>
          match execute_activity_block activity configuration secrets dry w
          with
          | (Returned run, w) =>
              call (EvControlsExit "activity" (Some (VDict run)))
                (cm_exit control activity run) w
          | (Raised e, w) =>
              match call (EvControlsExit "activity" None)
                      (cm_exit_raising control activity e) w with
              | (Returned _, w) => (Raised e, w)
              | (Raised e', w) => (Raised e', w)
              end
          end
      end
  end.

(** What [run_activities] yields: the pending future of a task handed to
    the pool, or the run of an activity executed on the spot. *)
Inductive item :=
| Pending (task : M Run)
| Completed (run : Run).

(** The body of the [for] loop of [run_activities] (lines 113-121). *)
Definition run_activities_yield (experiment : Experiment)
    (configuration secrets : value) (pool : executor) (dry : bool)
    (activity : value) : M item :=
  background ← lift (py_get activity "background");
  match activity with
  | VDict activity =>
      if truthy background then
        logger Debug "activity will run in the background" [];;
        (* pool.submit(execute_activity, ...) *)
        emit (EvSubmit activity);;
        mret (Pending
                (execute_activity experiment activity configuration secrets
                   dry))
      else
        run ← execute_activity experiment activity configuration secrets dry;
        mret (Completed run)
  | _ => raise (AttributeError "get")
  end.

(** The generator [run_activities] returns: not started, in the loop with
    the entries still to come, or exhausted. *)
Inductive generator :=
| Created
| Looping (rest : list value)
| Exhausted.

(** [run_activities] (lines 102-121): calling it runs nothing. *)
Definition run_activities (experiment : Experiment)
    (configuration secrets : value) (pool : executor) (dry : bool)
    : generator := Created.

(** [next(g)]: run up to the next [yield]; [None] is [StopIteration]. *)
Definition next (experiment : Experiment) (configuration secrets : value)
    (pool : executor) (dry : bool) (g : generator)
    : world -> outcome (option item) * generator * world := fun w =>
  let loop (rest : list value) :=
    match rest with
    | [] => (Returned None, Exhausted, w)
    | activity :: rest =>
        match run_activities_yield experiment configuration secrets pool
                dry activity w with
        | (Returned it, w) => (Returned (Some it), Looping rest, w)
        | (Raised e, w) => (Raised e, Exhausted, w)
        end
    end in
  match g with
  | Created =>
      match py_iter (dict_get experiment "method") with
      | Returned method => loop method
      | Raised e => (Raised e, Exhausted, w)
      end
  | Looping rest => loop rest
  | Exhausted => (Returned None, Exhausted, w)
  end.

(** [list(g)]: call [next] until the generator stops or raises. *)
Fixpoint collect (experiment : Experiment) (configuration secrets : value)
    (pool : executor) (dry : bool) (fuel : nat) (g : generator)
    : world -> option (outcome (list item)) * world := fun w =>
  match fuel with
  | O => (None, w)
  | S fuel =>
      match next experiment configuration secrets pool dry g w with
      | (Raised e, _, w) => (Some (Raised e), w)
      | (Returned None, _, w) => (Some (Returned []), w)
      | (Returned (Some it), g, w) =>
          match collect experiment configuration secrets pool dry fuel g w
          with
          | (Some (Returned its), w) => (Some (Returned (it :: its)), w)
          | other => other
          end
      end
  end.

(** The item [run_activities] owes for an entry of the method. *)
Definition item_of (experiment : Experiment) (configuration secrets : value)
    (dry : bool) (activity : Activity) (it : item) : Prop :=
  if in_background activity then
    it = Pending
           (execute_activity experiment activity configuration secrets dry)
  else
    exists (run : Run) (w1 w2 : world),
      it = Completed run
      /\ execute_activity experiment activity configuration secrets dry w1
         = (Returned run, w2).

(** [get_all_activities_in_experiment] (lines 236-252). *)
Definition get_all_activities_in_experiment (experiment : Experiment)
    : outcome (list value) :=
  let activities : list value := [] in
  let hypo := dict_get experiment "steady-state-hypothesis" in
  activities ←
    (if truthy hypo then
       probes ← match hypo with
                | VDict d => Returned (dict_get_default d "probes" (VList []))
                | _ => Raised (AttributeError "get")
                end;
       more ← py_iter probes;
       mret (activities ++ more)%list
     else mret activities);
  method ← py_iter (dict_get_default experiment "method" (VList []));
  let activities := (activities ++ method)%list in
  rollbacks ← py_iter (dict_get_default experiment "rollbacks" (VList []));
  mret (activities ++ rollbacks)%list.

End Executor.

Arguments Reply {E A} result env_after elapsed.
Arguments result {E A} r.
Arguments env_after {E A} r.
Arguments elapsed {E A} r.

End Executor.

(** ** The control registry and the control scope *)

Module Controls.
Import Executor.

Section Controls.

Context {E : Type}.
#[local] Abbreviation external := (@external E).

(** Composition of external calls: the second starts where the first
    ended, and their times add up. *)
Definition ext_ret {A : Type} (a : A) : external A := fun e _ =>
  Reply (Returned a) e 0%N.

Definition ext_raise {A : Type} (x : exn) : external A := fun e _ =>
  Reply (Raised x) e 0%N.

Definition ext_then {A B : Type} (f : external A)
    (k : outcome A -> external B) : external B := fun e t =>
  let r := f e t in
  let r' := k (result r) (env_after r) (t + Z.of_N (elapsed r)) in
  Reply (result r') (env_after r') (elapsed r + elapsed r')%N.

Definition ext_bind {A B : Type} (f : external A) (k : A -> external B)
    : external B :=
  ext_then f (fun o => match o with
                       | Returned a => k a
                       | Raised x => ext_raise x
                       end).

Definition ext_map {A B : Type} (g : A -> B) (f : external A) : external B :=
  ext_bind f (fun a => ext_ret (g a)).

(** Modelled from the spec: a control once its provider is resolved (the
    module [chaoslib.control] is not under src/).  Section 3 gives it a
    name, a scope (absent, [before] or [after]), the [automatic] flag and
    arguments; section 4.5 gives it an optional [configure_control], an
    optional [cleanup_control] and, per level, optional
    [before_<level>_control] and [after_<level>_control] hooks.  A before
    hook may rewrite the context it is given, an after hook the state. *)
Record control := Control {
  control_name : string;
  control_scope : value;
  control_automatic : bool;
  control_arguments : value;
  configure_control :
    option (Experiment -> value -> value -> value -> value -> external unit);
  cleanup_control : option (external unit);
  before_control :
    string ->
    option (gmap string value -> Experiment -> value -> value
            -> external (gmap string value));
  after_control :
    string ->
    option (value -> gmap string value -> Experiment -> value -> value
            -> external value)
}.

(** Resolving the provider of a declaration to its code is the work of the
    host's module loader: [None] when it does not resolve. *)
Variable import_control : string -> value -> option control.

(** Modelled from the spec: the entries [settings.controls.<name>]. *)
Definition declared_controls (settings : value) : list (string * value) :=
  match settings with
  | VDict settings =>
      match dict_get settings "controls" with
      | VDict declarations => map_to_list declarations
      | _ => []
      end
  | _ => []
  end.

(** Modelled from the spec: [load_global_controls(settings)] resolves the
    provider of each control of the settings. *)
Definition load_global_controls (settings : value) : list control :=
  omap (fun '(name, declaration) => import_control name declaration)
    (declared_controls settings).

(** Modelled from the spec: the optional [configure_control(experiment,
    configuration, secrets, settings, *args)] of one control; the answer
    tells whether the initialisation went through. *)
Definition initialize_control (c : control) (experiment : Experiment)
    (configuration secrets settings : value) : external bool :=
  match configure_control c with
  | None => ext_ret true
  | Some configure =>
      ext_then
        (configure experiment configuration secrets settings
           (control_arguments c))
        (fun o => ext_ret (match o with
                           | Returned _ => true
                           | Raised _ => false
                           end))
  end.

(** Modelled from the spec: "a control whose init fails must not be added
    to the registry and must not prevent others from loading".  The answer
    is the registry, which [get_global_controls()] reads. *)
Fixpoint initialize_controls (candidates : list control)
    (experiment : Experiment) (configuration secrets settings : value)
    : external (list control) :=
  match candidates with
  | [] => ext_ret []
  | c :: candidates =>
      ext_bind (initialize_control c experiment configuration secrets settings)
        (fun initialized =>
           ext_bind
             (initialize_controls candidates experiment configuration secrets
                settings)
             (fun registry =>
                ext_ret (if initialized : bool then c :: registry
                         else registry)))
  end.

Definition initialize_global_controls (experiment : Experiment)
    (configuration secrets settings : value) : external (list control) :=
  initialize_controls (load_global_controls settings) experiment configuration
    secrets settings.

(** Modelled from the spec: [cleanup_global_controls()] calls the optional
    [cleanup_control()] of each control, swallows what it raises, and
    leaves the registry empty. *)
Fixpoint cleanup_global_controls (registry : list control)
    : external (list control) :=
  match registry with
  | [] => ext_ret []
  | c :: registry =>
      match cleanup_control c with
      | None => cleanup_global_controls registry
      | Some cleanup =>
          ext_then cleanup (fun _ => cleanup_global_controls registry)
      end
  end.

(** Modelled from the spec: the controls a document node declares under
    [controls], resolved. *)
Definition attached_controls (context : gmap string value) : list control :=
  match dict_get context "controls" with
  | VList declarations =>
      omap (fun declaration =>
              match declaration with
              | VDict d =>
                  match dict_get d "name" with
                  | VStr name => import_control name declaration
                  | _ => None
                  end
              | _ => None
              end) declarations
  | _ => []
  end.

(** Modelled from the spec: [get_context_controls(level, experiment,
    context)], "controls explicitly attached to context, plus any
    automatic control defined at a higher level"; the registry of global
    controls sits above every level. *)
Definition get_context_controls (registry : list control) (level : string)
    (experiment : Experiment) (context : gmap string value) : list control :=
  attached_controls context
  ++ (if String.eqb level "experiment" then []
      else filter (fun c => control_automatic c = true)
             (attached_controls experiment))
  ++ registry.

Definition applies_before (c : control) : bool :=
  negb (eq_str (control_scope c) "after").
Definition applies_after (c : control) : bool :=
  negb (eq_str (control_scope c) "before").

(** Modelled from the spec: opening a scope calls the before hook of each
    effective control in turn.  [InterruptExecution] propagates; "any other
    exception from a hook must be logged and swallowed" (the log line is
    not modelled), and the context stays as it was. *)
Fixpoint apply_before (controls : list control) (level : string)
    (context : gmap string value) (experiment : Experiment)
    (configuration secrets : value) : external (gmap string value) :=
  match controls with
  | [] => ext_ret context
  | c :: controls =>
      match (if applies_before c then before_control c level else None) with
      | None =>
          apply_before controls level context experiment configuration secrets
      | Some hook =>
          ext_then (hook context experiment configuration secrets)
            (fun o =>
               match o with
               | Returned context' =>
                   apply_before controls level context' experiment
                     configuration secrets
               | Raised (InterruptExecution msg) =>
                   ext_raise (InterruptExecution msg)
               | Raised _ =>
                   apply_before controls level context experiment
                     configuration secrets
               end)
      end
  end.

(** Modelled from the spec: closing a scope calls the after hooks with the
    state of the phase, under the same rule for what they raise. *)
Fixpoint apply_after (controls : list control) (level : string)
    (state : value) (context : gmap string value) (experiment : Experiment)
    (configuration secrets : value) : external value :=
  match controls with
  | [] => ext_ret state
  | c :: controls =>
      match (if applies_after c then after_control c level else None) with
      | None =>
          apply_after controls level state context experiment configuration
            secrets
      | Some hook =>
          ext_then (hook state context experiment configuration secrets)
            (fun o =>
               match o with
               | Returned state' =>
                   apply_after controls level state' context experiment
                     configuration secrets
               | Raised (InterruptExecution msg) =>
                   ext_raise (InterruptExecution msg)
               | Raised _ =>
                   apply_after controls level state context experiment
                     configuration secrets
               end)
      end
  end.

(** Modelled from the spec: the scope handle [controls(level, experiment,
    context, configuration, secrets)] on a given registry.  A state that
    was a dictionary is still one when the hooks are done with it. *)
Definition controls (registry : list control) (level : string)
    (experiment : Experiment) (context : Activity)
    (configuration secrets : value) : @control_manager E :=
  let effective := get_context_controls registry level experiment context in
  {| cm_enter :=
       apply_before effective level context experiment configuration secrets;
     cm_exit := fun context run =>
       ext_map (fun state => match state with
                             | VDict run' => run'
                             | _ => run
                             end)
         (apply_after effective level (VDict run) context experiment
            configuration secrets);
     cm_exit_raising := fun context _ =>
       ext_map (fun _ => tt)
         (apply_after effective level VNone context experiment configuration
            secrets) |}.

End Controls.

Arguments Control {E} _ _ _ _ _ _ _ _.

End Controls.

(** ** The orchestrator *)

Module Orchestrator.
Import Executor Controls.

Section Orchestrator.

Context {E : Type}.
#[local] Abbreviation M := (@M E).
#[local] Abbreviation world := (@world E).

Variable import_control : string -> value -> option (@control E).
Variable run_python_activity : Activity -> value -> value -> @external E value.
Variable run_process_activity : Activity -> value -> value -> @external E value.
Variable run_http_activity : Activity -> value -> value -> @external E value.
Variable isoformat : Z -> string.
Variable format_exception : exn -> value.
(** The tolerance helpers: does the output of a probe meet its tolerance? *)
Variable within_tolerance : value -> value -> bool.
(** The environment variables of the process. *)
Variable getenv : string -> option string.

(** Modelled from the spec: the "document-scoped activity index" behind
    [lookup_activity] ([chaoslib.caching] is not under src/): the first
    activity of the document that bears the name. *)
Definition named (ref : value) (activity : value) : option Activity :=
  match activity, ref with
  | VDict d, VStr name =>
      if eq_str (dict_get d "name") name then Some d else None
  | _, _ => None
  end.

Definition lookup_activity (experiment : Experiment) (ref : value)
    : option Activity :=
  match get_all_activities_in_experiment experiment with
  | Returned activities => head (omap (named ref) activities)
  | Raised _ => None
  end.

(** [execute_activity] of the source, on the index of the document and the
    control scopes of a registry. *)
Definition execute (registry : list control) (experiment : Experiment)
    : Activity -> value -> value -> bool -> M Run :=
  execute_activity (lookup_activity experiment)
    (controls import_control registry) run_python_activity
    run_process_activity run_http_activity isoformat format_exception
    experiment.

(** Modelled from the spec (4.6 step 1, 6): a configuration value shaped
    [{type: "env", key: K, default?: D}] is read from the environment. *)
Definition resolve_configuration_value (v : value) : outcome value :=
  match v with
  | VDict d =>
      if eq_str (dict_get d "type") "env" then
        match dict_get d "key" with
        | VStr key =>
            match getenv key, d !! "default" with
            | Some found, _ => Returned (VStr found)
            | None, Some dflt => Returned dflt
            | None, None =>
                Raised (InvalidExperiment
                          "Configuration makes reference to an environment key that does not exist")
            end
        | _ =>
            Raised (InvalidExperiment
                      "Configuration makes reference to an environment key that does not exist")
        end
      else Returned v
  | _ => Returned v
  end.

Definition load_configuration (experiment : Experiment) : outcome value :=
  match dict_get experiment "configuration" with
  | VDict entries =>
      resolved ←
        foldr (fun '(key, v) acc =>
                 acc ← acc;
                 v' ← resolve_configuration_value v;
                 mret (<[key := v']> acc))
          (mret (∅ : gmap string value)) (map_to_list entries);
      mret (VDict resolved)
  | other => Returned other
  end.

(** Modelled from the spec (4.5): a control scope around a phase whose
    state is of type [S].  The before hooks may rewrite the context; the
    after hooks see the state of the phase and may rewrite it; the scope is
    closed, without a state, when the phase raises. *)
Definition with_scope {S : Type} (encode : S -> value)
    (decode : value -> option S) (registry : list control) (level : string)
    (experiment : Experiment) (context : gmap string value)
    (configuration secrets : value) (body : gmap string value -> M S)
    : M S := fun w =>
  let effective :=
    get_context_controls import_control registry level experiment context in
  match call (EvControlsEnter level)
          (apply_before effective level context experiment configuration
             secrets) w with
  | (Raised e, w) => (Raised e, w)
  | (Returned context, w) =>
      match body context w with
      | (Returned state, w) =>
          match call (EvControlsExit level (Some (encode state)))
                  (apply_after effective level (encode state) context
                     experiment configuration secrets) w with
          | (Returned state', w) =>
              (Returned (default state (decode state')), w)
          | (Raised e, w) => (Raised e, w)
          end
      | (Raised e, w) =>
          match call (EvControlsExit level None)
                  (apply_after effective level VNone context experiment
                     configuration secrets) w with
          | (Returned _, w) => (Raised e, w)
          | (Raised e', w) => (Raised e', w)
          end
      end
  end.

Definition as_dict (v : value) : option (gmap string value) :=
  match v with VDict d => Some d | _ => None end.
Definition as_list (v : value) : option (list value) :=
  match v with VList l => Some l | _ => None end.

(** Modelled from the spec (4.4): the probes of a hypothesis, in order.
    Each is executed as an activity and its output held against its
    tolerance; a probe whose run failed sets [tolerance_met] to false,
    is still recorded, and ends the evaluation. *)
Fixpoint run_probes (registry : list control) (experiment : Experiment)
    (configuration secrets : value) (dry : bool) (probes : list value)
    : M (list value * bool) :=
  match probes with
  | [] => mret ([], true)
  | VDict probe :: probes =>
      run ← execute registry experiment probe configuration secrets dry;
      if eq_str (dict_get run "status") "failed" then
        mret ([VDict (<["tolerance_met" := VBool false]> run)], false)
      else
        let met :=
          within_tolerance (dict_get probe "tolerance")
            (dict_get run "output") in
        '(runs, others_met) ←
          run_probes registry experiment configuration secrets dry probes;
        mret (VDict (<["tolerance_met" := VBool met]> run) :: runs,
              met && others_met)
  | _ :: _ => raise (AttributeError "get")
  end.

(** Modelled from the spec (4.4): [run_hypothesis]; [None] when the
    experiment declares no hypothesis. *)
Definition run_hypothesis (registry : list control) (experiment : Experiment)
    (configuration secrets : value) (dry : bool) : M value :=
  match dict_get experiment "steady-state-hypothesis" with
  | VDict hypothesis =>
      if truthy (VDict hypothesis) then
        state ←
          with_scope VDict as_dict registry "hypothesis" experiment
            hypothesis configuration secrets
            (fun hypothesis =>
               probes ←
                 lift (py_iter
                         (dict_get_default hypothesis "probes" (VList [])));
               '(runs, met) ←
                 run_probes registry experiment configuration secrets dry
                   probes;
               mret (<["tolerance_met" := VBool met]>
                       ({["probes" := VList runs]} : gmap string value)));
        mret (VDict state)
      else mret VNone
  | _ => mret VNone
  end.

Definition tolerance_met (state : value) : bool :=
  match state with
  | VDict d => truthy (dict_get d "tolerance_met")
  | _ => true
  end.

(** Modelled from the spec (4.6 step 6): the iteration over
    [run_activities].  Foreground runs are collected as they come, the
    handles of background activities are kept for later; an error stops
    the iteration with what was collected so far. *)
Fixpoint iterate (registry : list control) (experiment : Experiment)
    (configuration secrets : value) (pool : executor) (dry : bool)
    (fuel : nat) (g : generator)
    : world -> (list value * list (M Run) * option exn) * world := fun w =>
  match fuel with
  | O => (([], [], None), w)
  | S fuel =>
      match next (lookup_activity experiment)
              (controls import_control registry) run_python_activity
              run_process_activity run_http_activity isoformat
              format_exception experiment configuration secrets pool dry g w
      with
      | (Raised e, _, w) => (([], [], Some e), w)
      | (Returned None, _, w) => (([], [], None), w)
      | (Returned (Some (Completed run)), g, w) =>
          let '((runs, tasks, pending), w) :=
            iterate registry experiment configuration secrets pool dry fuel g
              w in
          ((VDict run :: runs, tasks, pending), w)
      | (Returned (Some (Pending task)), g, w) =>
          let '((runs, tasks, pending), w) :=
            iterate registry experiment configuration secrets pool dry fuel g
              w in
          ((runs, task :: tasks, pending), w)
      end
  end.

(** Modelled from the spec: awaiting the handles of the pool.  What a
    background activity raises stays in its future and is not surfaced. *)
Fixpoint await_all (tasks : list (M Run)) : world -> list value * world :=
  fun w =>
  match tasks with
  | [] => ([], w)
  | task :: tasks =>
      match task w with
      | (Returned run, w) =>
          let '(runs, w) := await_all tasks w in (VDict run :: runs, w)
      | (Raised _, w) => await_all tasks w
      end
  end.

(** The entries of the method, to bound the iteration. *)
Definition method_length (experiment : Experiment) : nat :=
  match py_iter (dict_get experiment "method") with
  | Returned method => length method
  | Raised _ => O
  end.

(** Modelled from the spec (4.6 step 6): the method phase, inside its
    control scope, which is closed on the list of runs whatever happened.
    The answer is that list and the error on its way out, if any. *)
Definition run_method (registry : list control) (experiment : Experiment)
    (configuration secrets : value) (pool : executor) (dry : bool)
    : world -> (list value * option exn) * world := fun w =>
  let effective :=
    get_context_controls import_control registry "method" experiment
      experiment in
  match call (EvControlsEnter "method")
          (apply_before effective "method" experiment experiment
             configuration secrets) w with
  | (Raised e, w) => (([], Some e), w)
  | (Returned context, w) =>
      let '((runs, tasks, pending), w) :=
        iterate registry experiment configuration secrets pool dry
          (S (method_length experiment))
          (run_activities experiment configuration secrets pool dry) w in
      let '(runs, w) :=
        match pending with
        | None => let '(late, w) := await_all tasks w in (runs ++ late, w)
        | Some _ => (runs, w)
        end in
      match call (EvControlsExit "method" (Some (VList runs)))
              (apply_after effective "method" (VList runs) context experiment
                 configuration secrets) w with
      | (Returned state, w) =>
          ((default runs (as_list state), pending), w)
      | (Raised e, w) => ((runs, Some e), w)
      end
  end.

(** Modelled from the spec (4.6 steps 5 to 7): the steady state before,
    the method, the steady state after, written into the journal as they
    complete.  The answer is the journal and the error on its way out. *)
Definition run_phases (registry : list control) (experiment : Experiment)
    (configuration secrets : value) (pool : executor) (dry : bool)
    (journal : gmap string value)
    : world -> (gmap string value * option exn) * world := fun w =>
  match run_hypothesis registry experiment configuration secrets dry w with
  | (Raised e, w) => ((journal, Some e), w)
  | (Returned before, w) =>
      let states : gmap string value :=
        <["after" := VNone]> {["before" := before]} in
      let journal := <["steady_states" := VDict states]> journal in
      if is_not_none before && negb (tolerance_met before) then
        ((<["status" := VStr "failed"]> journal, None), w)
      else
        let '((runs, pending), w) :=
          run_method registry experiment configuration secrets pool dry w in
        let journal := <["run" := VList runs]> journal in
        match pending with
        | Some e => ((journal, Some e), w)
        | None =>
            match run_hypothesis registry experiment configuration secrets
                    dry w with
            | (Raised e, w) => ((journal, Some e), w)
            | (Returned after, w) =>
                let journal :=
                  <["steady_states" := VDict (<["after" := after]> states)]>
                    journal in
                if is_not_none after && negb (tolerance_met after) then
                  ((<["status" := VStr "failed"]>
                      (<["deviated" := VBool true]> journal), None), w)
                else ((journal, None), w)
            end
        end
  end.

(** Modelled from the spec (4.6 step 8): the rollbacks, in order and never
    in the background.  An error ends the phase; what was run is kept. *)
Fixpoint run_rollbacks (registry : list control) (experiment : Experiment)
    (configuration secrets : value) (dry : bool) (rollbacks : list value)
    : M (list value) := fun w =>
  match rollbacks with
  | VDict rollback :: rollbacks =>
      match execute registry experiment rollback configuration secrets dry w
      with
      | (Returned run, w) =>
          match run_rollbacks registry experiment configuration secrets dry
                  rollbacks w with
          | (Returned runs, w) => (Returned (VDict run :: runs), w)
          | (Raised e, w) => (Raised e, w)
          end
      | (Raised _, w) => (Returned [], w)
      end
  | _ => (Returned [], w)
  end.

(** The rollbacks the document declares ("possibly empty"). *)
Definition rollbacks_of (experiment : Experiment) : list value :=
  match py_iter (dict_get_default experiment "rollbacks" (VList [])) with
  | Returned rollbacks => rollbacks
  | Raised _ => []
  end.

(** Modelled from the spec (section 7 and the interruption rule of 4.6):
    an interruption makes the journal [interrupted], any other error makes
    it [aborted]; only the interruption by the operating system skips the
    rollbacks. *)
Definition status_of (e : exn) : string :=
  match e with
  | KeyboardInterrupt | SystemExit | InterruptExecution _ => "interrupted"
  | _ => "aborted"
  end.

Definition is_os_interruption (e : exn) : bool :=
  match e with
  | KeyboardInterrupt | SystemExit => true
  | _ => false
  end.

(** Modelled from the spec (4.6 step 4): the journal at the entry of the
    run. *)
Definition new_journal (start : Z) : gmap string value :=
  <["start" := VStr (isoformat start)]>
    (<["rollbacks" := VList []]>
       (<["run" := VList []]>
          (<["deviated" := VBool false]>
             {["status" := VStr "completed"]}))).

(** Modelled from the spec (4.6 steps 4 to 9): the journal of a run, from
    its first stamp to its last.  "Rollback failures are recorded but do
    not alter journal.status." *)
Definition run_journal (registry : list control) (experiment : Experiment)
    (configuration secrets : value) (pool : executor) (dry : bool)
    : M (gmap string value) := fun w =>
  let '(start, w) := read_clock w in
  let journal := new_journal start in
  let '((journal, pending), w) :=
    run_phases registry experiment configuration secrets pool dry journal w in
  let journal :=
    match pending with
    | Some e => <["status" := VStr (status_of e)]> journal
    | None => journal
    end in
  let skip_rollbacks :=
    match pending with
    | Some e => is_os_interruption e
    | None => false
    end in
  let '(journal, w) :=
    if skip_rollbacks then (journal, w)
    else
      match with_scope VList as_list registry "rollback" experiment experiment
              configuration secrets
              (fun _ =>
                 run_rollbacks registry experiment configuration secrets dry
                   (rollbacks_of experiment)) w with
      | (Returned runs, w) => (<["rollbacks" := VList runs]> journal, w)
      | (Raised (InterruptExecution _), w) =>
          (<["status" := VStr "interrupted"]> journal, w)
      | (Raised _, w) => (journal, w)
      end in
  let '(end_, w) := read_clock w in
  (Returned
     (<["experiment" := VDict experiment]>
        (<["duration" := VNum (end_ - start)]>
           (<["end" := VStr (isoformat end_)]> journal))), w).

(** Modelled from the spec (4.6 steps 3 and 9): the run inside the scope of
    the experiment, then the teardown of the global controls.  An
    interruption by a hook of that scope still yields a journal. *)
Definition run_in_experiment_scope (registry : list control)
    (experiment : Experiment) (configuration secrets : value)
    (pool : executor) (dry : bool) : M (gmap string value) := fun w =>
  let '(journal, w) :=
    match with_scope VDict as_dict registry "experiment" experiment
            experiment configuration secrets
            (fun experiment =>
               run_journal registry experiment configuration secrets pool
                 dry) w with
    | (Returned journal, w) => (journal, w)
    | (Raised e, w) =>
        (({["status" := VStr (status_of e)]} : gmap string value), w)
    end in
  let '(_, w) :=
    call EvControlsCleanup
      (cleanup_global_controls registry : @external E (list control)) w in
  (Returned journal, w).

(** Modelled from the spec (4.6): [run_experiment(experiment, settings)].
    A configuration that does not resolve is an error for the caller,
    before anything runs; from there on the caller gets a journal. *)
Definition run_experiment (experiment : Experiment) (settings : value)
    (pool : executor) : M (gmap string value) :=
  configuration ← lift (load_configuration experiment);
  let secrets := dict_get experiment "secrets" in
  let dry := truthy (dict_get experiment "dry") in
  registry ←
    call EvControlsInit
      (initialize_global_controls import_control experiment configuration
         secrets settings);
  run_in_experiment_scope registry experiment configuration secrets pool dry.

End Orchestrator.
End Orchestrator.

(** ** Vocabulary of the specification and sample documents *)

(** "a non-empty string" *)
Definition non_empty_string (v : value) : bool :=
  isinstance_str v && negb (eq_str v "").

(** A pause [time.sleep] accepts: absent, zero, or a number of seconds
    that is not negative. *)
Definition sleepable (pause : value) : bool :=
  negb (truthy pause)
  || match pause with
     | VNum n => 0 <=? n
     | VBool _ => true
     | _ => false
     end.

(** An activity the executor can announce and pause around: its [type] is
    a string and its [pauses], when present, map [before] and [after] to
    pauses one can sleep. *)
Definition runnable (activity : Activity) : bool :=
  match activity !! "type" with Some (VStr _) => true | _ => false end
  && match dict_get_default activity "pauses" (VDict ∅) with
     | VDict pauses =>
         sleepable (dict_get pauses "before")
         && sleepable (dict_get pauses "after")
     | _ => false
     end.

(** The seconds of a configured pause, and the sum of the pauses an
    activity configures. *)
Definition pause_seconds (activity : Activity) (which : string) : Z :=
  match dict_get_default activity "pauses" (VDict ∅) with
  | VDict pauses =>
      match dict_get pauses which with
      | VNum n => Z.max 0 n
      | VBool true => 1
      | _ => 0
      end
  | _ => 0
  end.

Definition configured_pauses (activity : Activity) : Z :=
  pause_seconds activity "before" + pause_seconds activity "after".

(** The initialisation of a control fails, or goes through, whatever the
    state of the outside. *)
Definition init_fails {E : Type} (c : @Controls.control E)
    (experiment : Experiment) (configuration secrets settings : value)
    : Prop :=
  exists configure,
    Controls.configure_control c = Some configure
    /\ forall e t, exists x,
         Executor.result
           (configure experiment configuration secrets settings
              (Controls.control_arguments c) e t) = Raised x.

Definition init_returns {E : Type} (c : @Controls.control E)
    (experiment : Experiment) (configuration secrets settings : value)
    : Prop :=
  match Controls.configure_control c with
  | None => True
  | Some configure =>
      forall e t,
        Executor.result
          (configure experiment configuration secrets settings
             (Controls.control_arguments c) e t) = Returned tt
  end.

(** Events of the provider dispatch: the provider call and its log line. *)
Definition of_dispatch (ev : event) : bool := is_provider ev || is_log ev.

(** Events of a pause: its log line and the sleep itself. *)
Definition of_pause (ev : event) : bool := is_log ev || is_sleep ev.

(** [emits P m]: whatever [m] does, it appends events that all satisfy [P]
    to the trace, and moves the clock by the time these events take. *)
Definition emits {E X : Type} (P : event -> bool)
    (m : @Executor.world E -> X * @Executor.world E) : Prop :=
  forall w, exists evs,
    Executor.trace (m w).2 = Executor.trace w ++ evs
    /\ forallb P evs = true
    /\ Executor.now (m w).2 = Executor.now w + trace_time evs.

(** Events a dry run may leave: log lines, clock reads, and the opening
    and closing of the control scope. *)
Definition dry_event (ev : event) : bool :=
  match ev with
  | EvLog _ _ _ | EvUtcnow _ | EvControlsEnter _ _ | EvControlsExit _ _ _ =>
      true
  | EvSleep _ | EvProvider _ _ _ | EvSubmit _ | EvControlsInit _
  | EvControlsCleanup _ => false
  end.

(** Control hooks that return, and hand back the activity and the run as
    they got them. *)
Definition hooks_keep_documents {E : Type}
    (control : @Executor.control_manager E) (activity : Activity) : Prop :=
  (forall e t, Executor.result (Executor.cm_enter control e t)
               = Returned activity)
  /\ (forall a run e t,
         Executor.result (Executor.cm_exit control a run e t) = Returned run)
  /\ (forall a x e t,
         Executor.result (Executor.cm_exit_raising control a x e t)
         = Returned tt).

Module Fixtures.

(** A provider validator that finds nothing to say. *)
Definition accept (activity : Activity) : outcome unit := Returned tt.

Definition process_provider : value :=
  VDict (<["path" := VStr "/bin/true"]> {["type" := VStr "process"]}).

Definition python_provider : value :=
  VDict (<["func" := VStr "f"]>
           (<["module" := VStr "m"]> {["type" := VStr "python"]})).

(** A complete probe that also carries a null [ref]. *)
Definition null_ref_probe : Activity :=
  <["ref" := VNone]>
    (<["provider" := process_provider]>
       (<["name" := VStr "n"]> {["type" := VStr "probe"]})).

(** A reference to another activity, with a field no full activity may
    have. *)
Definition reference : Activity :=
  <["type" := VNum 3]> {["ref" := VStr "probe-1"]}.

(** A probe whose provider is tagged [code]. *)
Definition code_probe : Activity :=
  <["provider" :=
      VDict (<["func" := VStr "f"]>
               (<["module" := VStr "m"]> {["type" := VStr "code"]}))]>
    (<["name" := VStr "n"]> {["type" := VStr "probe"]}).

Definition python_probe : Activity :=
  <["provider" := python_provider]>
    (<["name" := VStr "n"]> {["type" := VStr "probe"]}).

(** The same probe between a pause of 5 seconds and one of 30. *)
Definition paused_probe : Activity :=
  <["pauses" := VDict (<["after" := VNum 30]> {["before" := VNum 5]})]>
    python_probe.

(** An action for the pool. *)
Definition background_action : Activity :=
  <["background" := VBool true]>
    (<["provider" := python_provider]>
       (<["name" := VStr "later"]> {["type" := VStr "action"]})).

(** A reference to an activity that no document declares. *)
Definition dangling : Activity := {["ref" := VStr "nope"]}.

(** The outside is the list of the marks that user code left. *)
Definition marks : Type := list string.

Definition world0 : @Executor.world marks := Executor.World 100 [] [].

(** Runners of the python provider: one that answers after 3 seconds, one
    that fails the activity after 2, one that breaks, one that is hit by
    the interruption of the operating system. *)
Definition answering : Activity -> value -> value -> @Executor.external marks value :=
  fun _ _ _ e _ => Executor.Reply (Returned (VNum 0)) e 3.
Definition failing : Activity -> value -> value -> @Executor.external marks value :=
  fun _ _ _ e _ =>
    Executor.Reply (Raised (ActivityFailed "boom" [])) e 2.
Definition breaking : Activity -> value -> value -> @Executor.external marks value :=
  fun _ _ _ e _ => Executor.Reply (Raised (OtherError "RuntimeError")) e 2.
Definition interrupted : Activity -> value -> value -> @Executor.external marks value :=
  fun _ _ _ e _ => Executor.Reply (Raised KeyboardInterrupt) e 1.

(** No activity index, no control. *)
Definition no_index (ref : value) : option Activity := None.

Definition no_controls (level : string) (experiment : Experiment)
    (context : Activity) (configuration secrets : value)
    : @Executor.control_manager marks :=
  Executor.ControlManager
    (fun e _ => Executor.Reply (Returned context) e 0)
    (fun _ run e _ => Executor.Reply (Returned run) e 0)
    (fun _ _ e _ => Executor.Reply (Returned tt) e 0).

Definition isoformat (t : Z) : string := pretty t.
Definition format_exception (x : exn) : value :=
  VList (Executor.exn_message x).

(** The run a call answered with, if it did. *)
Definition run_of (answer : outcome Run * @Executor.world marks) : Run :=
  match answer.1 with
  | Returned run => run
  | Raised _ => ∅
  end.

Definition returns {A : Type} (answer : outcome A * @Executor.world marks)
    : bool :=
  match answer.1 with
  | Returned _ => true
  | Raised _ => false
  end.

(** The paused probe, executed for real. *)
Definition paused_run : outcome Run * @Executor.world marks :=
  Executor.execute_activity no_index no_controls answering answering
    answering isoformat format_exception ∅ paused_probe VNone VNone false
    world0.

(** A host without control modules, a process without environment, and
    tolerances that anything meets. *)
Definition no_import (name : string) (declaration : value)
    : option (@Controls.control marks) := None.
Definition no_env (key : string) : option string := None.
Definition any_tolerance (tolerance output : value) : bool := true.

(** The experiment of the missing reference: a probe that refers to an
    activity [nope], which the document does not have. *)
Definition missing_ref_experiment : Experiment :=
  <["rollbacks" := VList []]>
    (<["method" := VList [VDict dangling; VDict python_probe]]>
       (<["description" := VStr "an experiment of importance"]>
          {["title" := VStr "do cats live in the Internet?"]})).

(** The experiment of the long pause: an action with 30 seconds of pause
    after it, and a rollback. *)
Definition long_pause_experiment : Experiment :=
  <["rollbacks" := VList [VDict python_probe]]>
    (<["method" := VList [VDict paused_probe]]>
       (<["description" := VStr "an experiment of importance"]>
          {["title" := VStr "do cats live in the Internet?"]})).

(** Two global controls, as user code: [dummy] marks what it is called
    for; [faulty] fails its initialisation, and would mark
    [should_never_been_called] if a hook of it were called. *)
Definition dummy : @Controls.control marks :=
  Controls.Control "dummy" VNone true VNone
    (Some (fun _ _ _ _ _ e _ =>
             Executor.Reply (Returned tt) ("configured" :: e) 0))
    None
    (fun level =>
       Some (fun context _ _ _ e _ =>
               Executor.Reply (Returned context) (("before " +:+ level) :: e)
                 0))
    (fun level =>
       Some (fun state _ _ _ _ e _ =>
               Executor.Reply (Returned state) (("after " +:+ level) :: e) 0)).

Definition faulty : @Controls.control marks :=
  Controls.Control "dummy-failed" VNone true VNone
    (Some (fun _ _ _ _ _ e _ =>
             Executor.Reply (Raised (OtherError "init failed")) e 0))
    None
    (fun level =>
       Some (fun context _ _ _ e _ =>
               Executor.Reply (Returned context)
                 ("should_never_been_called" :: e) 0))
    (fun level =>
       Some (fun state _ _ _ _ e _ =>
               Executor.Reply (Returned state)
                 ("should_never_been_called" :: e) 0)).

Definition import_dummies (name : string) (declaration : value)
    : option (@Controls.control marks) :=
  if String.eqb name "dummy" then Some dummy
  else if String.eqb name "dummy-failed" then Some faulty
  else None.

Definition dummy_settings : value :=
  VDict {["controls" :=
           VDict (<["dummy" := VDict {["provider" := python_provider]}]>
                    {["dummy-failed" :=
                        VDict {["provider" := python_provider]}]})]}.

(** An experiment of one probe, run under the two controls. *)
Definition one_probe_experiment : Experiment :=
  <["method" := VList [VDict python_probe]]>
    (<["description" := VStr "an experiment of importance"]>
       {["title" := VStr "do cats live in the Internet?"]}).

Definition controlled_run
    : outcome (gmap string value) * @Executor.world marks :=
  Orchestrator.run_experiment import_dummies answering answering answering
    isoformat format_exception any_tolerance no_env one_probe_experiment
    dummy_settings (ThreadPoolExecutor 1) world0.

Definition marked (mark : string) (answer : outcome (gmap string value)
                                            * @Executor.world marks)
    : bool :=
  existsb (String.eqb mark) (Executor.env answer.2).

(** A method of two entries: one for the pool, one for the spot. *)
Definition two_steps : Experiment :=
  {["method" := VList [VDict background_action; VDict python_probe]]}.

End Fixtures.

(** ** Shapes of documents, for the properties of the code *)

(** A field that is absent (or null) or a number. *)
Definition number_or_absent (v : value) : bool :=
  negb (is_not_none v) || isinstance_number v.

(** [pauses] as the validation takes it: absent, or a mapping whose
    [before] and [after] are absent or numbers. *)
Definition pauses_shape (v : value) : bool :=
  match v with
  | VNone => true
  | VDict pauses =>
      number_or_absent (dict_get pauses "before")
      && number_or_absent (dict_get pauses "after")
  | _ => false
  end.

(** A full definition as lines 50-92 want it. *)
Definition full_definition_shape (activity : Activity) : bool :=
  in_strs (dict_get activity "type") ["probe"; "action"]
  && truthy (dict_get activity "name")
  && match dict_get activity "provider" with
     | VDict provider =>
         in_strs (dict_get provider "type") ["python"; "process"; "http"]
     | _ => false
     end
  && number_or_absent (dict_get activity "timeout")
  && pauses_shape (dict_get activity "pauses")
  && background_typed activity.

(** The type a provider declares. *)
Definition provider_type_of (activity : Activity) : value :=
  match dict_get activity "provider" with
  | VDict provider => dict_get provider "type"
  | _ => VNone
  end.

(** A mapping, or nothing that counts. *)
Definition mapping_or_falsy (v : value) : bool :=
  match v with
  | VDict _ => true
  | _ => negb (truthy v)
  end.

Definition mapping_or_none (v : value) : bool :=
  match v with
  | VDict _ | VNone => true
  | _ => false
  end.

(** The provider validator that lines 94-99 call for an activity. *)
Definition matching_validator
    (validate_python_activity validate_process_activity
       validate_http_activity : Activity -> outcome unit)
    (activity : Activity) : outcome unit :=
  let provider_type := provider_type_of activity in
  if eq_str provider_type "python" then validate_python_activity activity
  else if eq_str provider_type "process"
       then validate_process_activity activity
  else if eq_str provider_type "http" then validate_http_activity activity
  else Returned tt.

(** The runner that lines 222-227 pick for a provider type. *)
Definition runner_for {E : Type}
    (run_python_activity run_process_activity run_http_activity :
       Activity -> value -> value -> @Executor.external E value)
    (kind : string)
    : option (Activity -> value -> value -> @Executor.external E value) :=
  if String.eqb kind "python" then Some run_python_activity
  else if String.eqb kind "process" then Some run_process_activity
  else if String.eqb kind "http" then Some run_http_activity
  else None.

(** The line that [run_activity] logs when an [Exception] went through. *)
Definition failure_log (o : outcome value) : list event :=
  match o with
  | Raised e =>
      if Executor.is_Exception e then [EvLog Debug "Activity failed" []]
      else []
  | Returned _ => []
  end.

(** What a property of events must let through to hold of all that the
    block under the control scope leaves: log lines, clock readings,
    provider calls and the sleeps [time.sleep] accepts. *)
Definition block_events (P : event -> bool) : Prop :=
  (forall level template args, P (EvLog level template args) = true)
  /\ (forall t, P (EvUtcnow t) = true)
  /\ (forall kind activity took, P (EvProvider kind activity took) = true)
  /\ (forall n, 0 <= n -> P (EvSleep n) = true).

(** The events of the block: the least such property. *)
Definition of_block (ev : event) : bool :=
  match ev with
  | EvLog _ _ _ | EvUtcnow _ | EvProvider _ _ _ => true
  | EvSleep n => 0 <=? n
  | _ => false
  end.

(** What handing an activity to the pool leaves in the trace. *)
Definition submission (activity : Activity) : list event :=
  [EvLog Debug "activity will run in the background" [];
   EvSubmit activity].

(** Pauses that are not negative numbers, as [time.sleep] wants them. *)
Definition not_negative (v : value) : bool :=
  match v with
  | VNum n => 0 <=? n
  | _ => true
  end.

Definition pauses_not_negative (activity : Activity) : bool :=
  match dict_get activity "pauses" with
  | VDict pauses =>
      not_negative (dict_get pauses "before")
      && not_negative (dict_get pauses "after")
  | _ => true
  end.

(** Further documents and worlds, for the properties of the code. *)
Module Scenarios.
Import Fixtures.

Definition python_settings : gmap string value :=
  <["func" := VStr "f"]>
    (<["module" := VStr "m"]> {["type" := VStr "python"]}).

Definition code_settings : gmap string value :=
  <["func" := VStr "f"]>
    (<["module" := VStr "m"]> {["type" := VStr "code"]}).

(** A probe without provider, one whose provider has no type, and one
    whose provider is a string. *)
Definition bare_probe : Activity :=
  <["name" := VStr "n"]> {["type" := VStr "probe"]}.

Definition untyped_settings : gmap string value :=
  {["path" := VStr "/bin/true"]}.

Definition untyped_probe : Activity :=
  <["provider" := VDict untyped_settings]> bare_probe.

Definition stringly_probe : Activity :=
  <["provider" := VStr "python"]> bare_probe.

(** Probes with pauses the validation lets through and the executor
    cannot honour. *)
Definition null_pauses_probe : Activity :=
  <["pauses" := VNone]> python_probe.

Definition early_pauses : gmap string value := {["before" := VNum (-1)]}.
Definition early_probe : Activity :=
  <["pauses" := VDict early_pauses]> python_probe.

Definition late_pauses : gmap string value := {["after" := VNum (-1)]}.
Definition late_probe : Activity :=
  <["pauses" := VDict late_pauses]> python_probe.

(** An index that knows the probe under the name [probe-1]. *)
Definition probe_index (ref : value) : option Activity :=
  if eq_str ref "probe-1" then Some python_probe else None.

(** Experiments: a method for the pool only, a document without method,
    one with every section, and two with a null section. *)
Definition background_only : Experiment :=
  {["method" := VList [VDict background_action; VDict background_action]]}.

Definition no_method : Experiment :=
  {["title" := VStr "do cats live in the Internet?"]}.

Definition full_hypothesis : gmap string value :=
  <["probes" := VList [VDict python_probe]]> {["title" := VStr "steady"]}.

Definition full_experiment : Experiment :=
  <["steady-state-hypothesis" := VDict full_hypothesis]>
    long_pause_experiment.

Definition null_method : Experiment := {["method" := VNone]}.
Definition null_rollbacks : Experiment := {["rollbacks" := VNone]}.

(** The error of a reference that the index does not know. *)
Definition not_found : exn :=
  ActivityFailed "could not find referenced activity '{r}'" [VStr "nope"].

End Scenarios.

(** * Properties *)

Module ValidationFacts.
Import Validation Fixtures.

Section ValidationFacts.

Variable validate_python_activity : Activity -> outcome unit.
Variable validate_process_activity : Activity -> outcome unit.
Variable validate_http_activity : Activity -> outcome unit.

#[local] Abbreviation ensure_activity_is_valid :=
  (ensure_activity_is_valid validate_python_activity
     validate_process_activity validate_http_activity).
#[local] Abbreviation check_declared_fields :=
  (check_declared_fields validate_python_activity
     validate_process_activity validate_http_activity).

Lemma truthy_dict_with (d : gmap string value) (k : string) (v : value) :
  d !! k = Some v -> truthy (VDict d) = true.
Proof.
  intros Hk. simpl. case_bool_decide as Hd; [|done].
  subst d. by rewrite lookup_empty in Hk.
Qed.

Lemma in_strs_truthy (v : value) (ss : list string) :
  in_strs v ss = true -> Forall (fun s => s <> "") ss -> truthy v = true.
Proof.
  unfold in_strs. intros Hin Hne.
  apply existsb_exists in Hin as (s & Hs & Heq).
  destruct v; simpl in Heq; try discriminate.
  apply String.eqb_eq in Heq. subst s0. simpl.
  rewrite Forall_forall in Hne. apply list_elem_of_In in Hs.
  specialize (Hne _ Hs). destruct (String.eqb_spec s ""); [done|done].
Qed.

(** C6, as amended.  An activity whose [ref] is present and not null is
    judged on [ref] alone: it is accepted when [ref] is a non-empty string
    and rejected with [InvalidActivity] otherwise, whatever its other
    fields and whatever the provider validators say. *)
Theorem ref_alone_is_validated (activity : Activity) (ref : value) :
  activity !! "ref" = Some ref ->
  ref <> VNone ->
  ensure_activity_is_valid activity =
    if non_empty_string ref then Returned tt
    else Raised (InvalidActivity
                   "reference to activity must be non-empty strings" []).
Proof.
  intros Href Hnone.
  assert (Hr : dict_get activity "ref" = ref)
    by (unfold dict_get; by rewrite Href).
  unfold Validation.ensure_activity_is_valid.
  rewrite (truthy_dict_with _ _ _ Href), Hr. cbn.
  destruct ref; try done; cbn.
  unfold non_empty_string. cbn. by destruct (String.eqb s "").
Qed.

(** C5, as amended.  For a full definition (no [ref] key) whose provider is
    a mapping, the provider types that pass are exactly [python],
    [process] and [http]: with any other type, or none, the activity is
    rejected with [InvalidActivity]; with one of the three, a probe or
    action that has a name goes on to the checks of its declared fields. *)
Theorem provider_type_is_checked (activity provider : gmap string value) :
  activity !! "ref" = None ->
  activity !! "provider" = Some (VDict provider) ->
  (in_strs (dict_get provider "type") ["python"; "process"; "http"] = false ->
   exists msg args,
     ensure_activity_is_valid activity = Raised (InvalidActivity msg args))
  /\ (in_strs (dict_get provider "type") ["python"; "process"; "http"] = true ->
      in_strs (dict_get activity "type") ["probe"; "action"] = true ->
      truthy (dict_get activity "name") = true ->
      ensure_activity_is_valid activity =
        check_declared_fields activity (dict_get provider "type")).
Proof.
  intros Href Hprov.
  assert (Hr : dict_get activity "ref" = VNone)
    by (unfold dict_get; by rewrite Href).
  assert (Hp : dict_get activity "provider" = VDict provider)
    by (unfold dict_get; by rewrite Hprov).
  unfold Validation.ensure_activity_is_valid, check_provider_type.
  rewrite (truthy_dict_with _ _ _ Hprov), Hr, Hp. cbn.
  split.
  - intros Hout.
    destruct (truthy (dict_get activity "type")); cbn; [|eauto].
    destruct (in_strs (dict_get activity "type") _); cbn; [|eauto].
    destruct (truthy (dict_get activity "name")); cbn; [|eauto].
    case_bool_decide; cbn; [eauto|].
    destruct (truthy (dict_get provider "type")); cbn; [|eauto].
    rewrite Hout. cbn. eauto.
  - intros Hin Htype Hname.
    rewrite (in_strs_truthy _ _ Htype) by (repeat constructor; done).
    rewrite Htype, Hname. cbn.
    assert (Htruthy := in_strs_truthy _ _ Hin
              ltac:(repeat constructor; done)).
    case_bool_decide as Hempty; cbn.
    + subst provider. unfold dict_get in Htruthy.
      rewrite lookup_empty in Htruthy. discriminate.
    + rewrite Htruthy, Hin. cbn. reflexivity.
Qed.

End ValidationFacts.

(** C6 with a concrete reference: [type] is a number, which no full
    definition may have, and the activity is accepted all the same. *)
Lemma ref_alone_is_validated_witness :
  reference !! "ref" = Some (VStr "probe-1")
  /\ VStr "probe-1" <> VNone
  /\ ensure_activity_is_valid accept accept accept reference = Returned tt.
Proof.
  split; [reflexivity|]. split; [discriminate|].
  apply (ref_alone_is_validated accept accept accept reference
           (VStr "probe-1")); [reflexivity | discriminate].
Defined.

(** C6 as written fails on a null [ref]: the key is present, its value is
    not a non-empty string, and yet the activity is accepted, after its
    other fields have been checked (an empty name is rejected). *)
Lemma null_ref_is_not_a_reference :
  null_ref_probe !! "ref" = Some VNone
  /\ non_empty_string VNone = false
  /\ ensure_activity_is_valid accept accept accept null_ref_probe
     = Returned tt
  /\ ensure_activity_is_valid accept accept accept
       (<["name" := VStr ""]> null_ref_probe)
     = Raised (InvalidActivity "an activity must have a name" []).
Proof. vm_compute. repeat split; reflexivity. Qed.

(** C5 with the [python] probe of the fixtures. *)
Lemma provider_type_is_checked_witness :
  python_probe !! "ref" = None
  /\ python_probe !! "provider" = Some python_provider
  /\ ensure_activity_is_valid accept accept accept python_probe
     = Returned tt.
Proof.
  split; [reflexivity|]. split; [reflexivity|].
  destruct (provider_type_is_checked accept accept accept python_probe
              (<["func" := VStr "f"]>
                 (<["module" := VStr "m"]> {["type" := VStr "python"]})))
    as [_ Hpass]; [reflexivity | reflexivity |].
  rewrite Hpass; reflexivity.
Defined.

(** C5 as written fails on the tag [code]: such a provider is rejected as
    unknown. *)
Lemma code_is_not_a_provider_type :
  code_probe !! "ref" = None
  /\ ensure_activity_is_valid accept accept accept code_probe
     = Raised (InvalidActivity "unknown provider type '{type}'"
                 [VStr "code"]).
Proof. vm_compute. split; reflexivity. Qed.

End ValidationFacts.

Module ExecutorFacts.
Import Executor.

Section Emits.

Context {E : Type}.
#[local] Abbreviation world := (@world E).
#[local] Abbreviation emits := (@emits E).

Lemma trace_time_app (xs ys : list event) :
  trace_time (xs ++ ys) = trace_time xs + trace_time ys.
Proof. unfold trace_time. induction xs as [|x xs IH]; cbn; lia. Qed.

Lemma forallb_weaken (P Q : event -> bool) (evs : list event) :
  (forall ev, P ev = true -> Q ev = true) ->
  forallb P evs = true -> forallb Q evs = true.
Proof. rewrite !forallb_forall. auto. Qed.

Lemma emits_nothing {X : Type} (P : event -> bool) (x : X) :
  emits P (fun w : world => (x, w)).
Proof. intros w. exists []. cbn. rewrite app_nil_r. repeat split; lia. Qed.

Lemma emits_one {X : Type} (P : event -> bool) (x : world -> X)
    (ev : world -> event) (dt : world -> Z) (e' : world -> E) :
  (forall w, P (ev w) = true) ->
  (forall w, dt w = event_time (ev w)) ->
  emits P (fun w => (x w, World (now w + dt w) (e' w) (trace w ++ [ev w]))).
Proof.
  intros HP Hdt w. exists [ev w]. cbn. rewrite HP, Hdt. repeat split; lia.
Qed.

Lemma emits_then {X Y : Type} (P : event -> bool) (m : world -> X * world)
    (k : X -> world -> Y * world) :
  emits P m -> (forall x, emits P (k x)) ->
  emits P (fun w => k (m w).1 (m w).2).
Proof.
  intros Hm Hk w. destruct (Hm w) as (evs1 & Ht1 & Hp1 & Hn1).
  destruct (Hk (m w).1 (m w).2) as (evs2 & Ht2 & Hp2 & Hn2).
  exists (evs1 ++ evs2). cbn. rewrite Ht2, Ht1, Hn2, Hn1, forallb_app, Hp1, Hp2.
  rewrite trace_time_app, app_assoc. repeat split; lia.
Qed.

Lemma emits_ext {X : Type} (P : event -> bool) (m m' : world -> X * world) :
  (forall w, m w = m' w) -> emits P m -> emits P m'.
Proof. intros Heq Hm w. rewrite <- Heq. apply Hm. Qed.

Lemma emits_weaken {X : Type} (P Q : event -> bool) (m : world -> X * world) :
  (forall ev, P ev = true -> Q ev = true) -> emits P m -> emits Q m.
Proof.
  intros HPQ Hm w. destruct (Hm w) as (evs & Ht & Hp & Hn).
  exists evs. repeat split; [done| |done].
  rewrite forallb_forall in *. auto.
Qed.

Lemma emits_bind {A B : Type} (P : event -> bool) (m : M A) (k : A -> M B) :
  emits P m -> (forall a, emits P (k a)) -> emits P (m ≫= k).
Proof.
  intros Hm Hk.
  pose (k' := fun (x : outcome A) (w' : world) =>
                match x with
                | Returned a => k a w'
                | Raised e => (Raised e, w')
                end).
  apply (emits_ext P (fun w => k' (m w).1 (m w).2)).
  - intros w. unfold mbind, M_bind, k'. by destruct (m w) as [[a|e] w'].
  - apply (emits_then P m k'); [done|].
    intros [a|e]; [apply Hk | apply emits_nothing].
Qed.

Lemma emits_ret {A : Type} (P : event -> bool) (a : A) : emits P (mret a : M A).
Proof. apply emits_nothing. Qed.

Lemma emits_lift {A : Type} (P : event -> bool) (o : outcome A) :
  emits P (lift o).
Proof. apply emits_nothing. Qed.

Lemma emits_emit (P : event -> bool) (ev : event) :
  P ev = true -> event_time ev = 0 -> emits P (emit ev).
Proof.
  intros HP Ht w. exists [ev]. cbn. rewrite HP, Ht. repeat split; lia.
Qed.

Lemma emits_logger (P : event -> bool) (level : log_level)
    (template : string) (args : list value) :
  P (EvLog level template args) = true ->
  emits P (logger level template args).
Proof. intros HP. by apply emits_emit. Qed.

Lemma emits_call {A : Type} (P : event -> bool) (ev : N -> event)
    (f : external A) :
  (forall t, P (ev t) = true) ->
  (forall t, event_time (ev t) = Z.of_N t) ->
  emits P (call ev f).
Proof.
  intros HP Ht w. exists [ev (elapsed (f (env w) (now w)))]. cbn.
  rewrite HP, Ht. repeat split; lia.
Qed.

Lemma emits_utcnow (P : event -> bool) :
  (forall t, P (EvUtcnow t) = true) -> emits P utcnow.
Proof.
  intros HP w. exists [EvUtcnow (now w)]. cbn. rewrite HP.
  repeat split; lia.
Qed.

Lemma emits_sleep (P : event -> bool) (secs : value) :
  (forall n, P (EvSleep n) = true) -> emits P (time_sleep secs).
Proof.
  intros HP w. unfold time_sleep.
  destruct (sleep_seconds secs) as [n|e]; cbn.
  - exists [EvSleep n]. cbn. rewrite HP. repeat split; lia.
  - exists []. rewrite app_nil_r. cbn. repeat split; lia.
Qed.

Lemma emits_result {X Y : Type} (P : event -> bool) (m : world -> X * world)
    (f : X -> Y) :
  emits P m -> emits P (fun w => (f (m w).1, (m w).2)).
Proof. intros Hm w. apply Hm. Qed.

End Emits.

Section Facts.

Context {E : Type}.
#[local] Abbreviation world := (@world E).
#[local] Abbreviation emits := (@emits E).

Variable lookup_activity : value -> option Activity.
Variable controls :
  string -> Experiment -> Activity -> value -> value -> @control_manager E.
Variable run_python_activity : Activity -> value -> value -> @external E value.
Variable run_process_activity : Activity -> value -> value -> @external E value.
Variable run_http_activity : Activity -> value -> value -> @external E value.
Variable isoformat : Z -> string.
Variable format_exception : exn -> value.

#[local] Abbreviation run_activity_try :=
  (run_activity_try run_python_activity run_process_activity
     run_http_activity).
#[local] Abbreviation run_activity :=
  (run_activity run_python_activity run_process_activity run_http_activity).
#[local] Abbreviation try_except :=
  (try_except run_python_activity run_process_activity run_http_activity
     format_exception).
#[local] Abbreviation try_activity :=
  (try_activity run_python_activity run_process_activity run_http_activity
     isoformat format_exception).
#[local] Abbreviation execute_activity_block :=
  (execute_activity_block run_python_activity run_process_activity
     run_http_activity isoformat format_exception).
#[local] Abbreviation execute_activity :=
  (execute_activity lookup_activity controls run_python_activity
     run_process_activity run_http_activity isoformat format_exception).

Lemma run_activity_try_emits (activity : Activity)
    (configuration secrets : value) :
  emits of_dispatch (run_activity_try activity configuration secrets).
Proof.
  unfold Executor.run_activity_try.
  apply emits_bind; [apply emits_lift|]. intros provider.
  apply emits_bind; [apply emits_lift|]. intros activity_type.
  repeat case_match;
    try (apply emits_bind; [by apply emits_call | intros; apply emits_ret]);
    apply emits_ret.
Qed.

Lemma run_activity_emits (activity : Activity)
    (configuration secrets : value) :
  emits of_dispatch (run_activity activity configuration secrets).
Proof.
  pose (k := fun (x : outcome (option value)) (w1 : world) =>
    match x with
    | Raised e =>
        if is_Exception e
        then (Raised e : outcome value,
              (logger Debug "Activity failed" [] w1).2)
        else (Raised e, w1)
    | Returned (Some result) => (Returned result, w1)
    | Returned None => (Raised (OtherError "UnboundLocalError"), w1)
    end).
  apply (emits_ext _ (fun w =>
           k (run_activity_try activity configuration secrets w).1
             (run_activity_try activity configuration secrets w).2)).
  - intros w. unfold Executor.run_activity, k.
    by destruct (run_activity_try activity configuration secrets w)
      as [[[r|]|e] w1].
  - apply (emits_then _ _ k); [apply run_activity_try_emits|].
    intros [[r|]|e]; unfold k; try apply emits_nothing.
    destruct (is_Exception e); [|apply emits_nothing].
    apply (emits_result _ (logger Debug "Activity failed" [])
             (fun _ => Raised e)).
    by apply emits_logger.
Qed.

Lemma pause_before_emits (pauses : value) (dry : bool) :
  emits (if dry then is_log else of_pause)
    (pause_before pauses dry : @M E unit).
Proof.
  unfold pause_before.
  apply emits_bind; [apply emits_lift|]. intros p.
  destruct (truthy p); [|apply emits_ret].
  apply emits_bind; [apply emits_logger; by destruct dry|]. intros _.
  destruct dry; cbn; [apply emits_ret | by apply emits_sleep].
Qed.

Lemma pause_after_emits (pauses : value) (interrupted dry : bool) :
  emits (if dry then is_log else of_pause)
    (pause_after pauses interrupted dry : @M E unit).
Proof.
  unfold pause_after.
  apply emits_bind; [apply emits_lift|]. intros p.
  destruct (truthy p && negb interrupted); [|apply emits_ret].
  apply emits_bind; [apply emits_logger; by destruct dry|]. intros _.
  destruct dry; cbn; [apply emits_ret | by apply emits_sleep].
Qed.

Lemma announce_emits (activity : Activity) :
  emits is_log (announce activity : @M E unit).
Proof.
  unfold announce.
  destruct (truthy (dict_get activity "background"));
    (apply emits_bind; [apply emits_lift|]; intros t; by apply emits_logger).
Qed.

Lemma try_except_emits (activity : Activity) (configuration secrets : value)
    (dry : bool) (run : Run) :
  emits (if dry then is_log else of_dispatch)
    (try_except activity configuration secrets dry run).
Proof.
  set (P := if dry then is_log else of_dispatch).
  assert (HPlog : forall l t a, P (EvLog l t a) = true)
    by (intros; unfold P; by destruct dry).
  pose (m := if negb dry then run_activity activity configuration secrets
             else mret VNone).
  assert (Hm : emits P m).
  { unfold m, P. destruct dry; cbn; [apply emits_ret|].
    apply run_activity_emits. }
  pose (k := fun (x : outcome value) (w : world) =>
    match x with
    | Returned result =>
        ((<["status" := VStr "succeeded"]> (<["output" := result]> run),
          None : option exn),
         snd ((if is_not_none result
               then logger Debug "  => succeeded with '{r}'" [result]
               else logger Debug "  => succeeded without any result value" [])
                w))
    | Raised x =>
        if is_ActivityFailed x then
          ((<["exception" := format_exception x]>
              (<["output" := VNone]> (<["status" := VStr "failed"]> run)),
            None),
           snd (logger Error "  => failed: {x}" (exn_message x) w))
        else ((run, Some x), w)
    end).
  apply (emits_ext P (fun w => k (m w).1 (m w).2)).
  - intros w. unfold Executor.try_except, k. fold m.
    by destruct (m w) as [[r|x] w1].
  - apply (emits_then P m k); [done|]. intros [r|x]; unfold k.
    + destruct (is_not_none r);
        match goal with
        | |- emits _ (fun w => (?x, snd (?l w))) =>
            apply (emits_result P l (fun _ => x)); by apply emits_logger
        end.
    + destruct (is_ActivityFailed x); [|apply emits_nothing].
      match goal with
      | |- emits _ (fun w => (?x, snd (?l w))) =>
          apply (emits_result P l (fun _ => x)); by apply emits_logger
      end.
Qed.

(** The [finally] clause stamps the run with the clock as it stands when
    the [try] block is left, and pauses only afterwards. *)
Lemma try_activity_timeline (activity : Activity)
    (configuration secrets : value) (dry : bool) (pauses : value) (start : Z)
    (run run' : Run) (pending : option exn) (w w' : world) :
  try_activity activity configuration secrets dry pauses start run w
  = ((run', pending), w') ->
  exists (mid post : list event) (end_ : Z),
    trace w' = trace w ++ mid ++ [EvUtcnow end_] ++ post
    /\ forallb (if dry then is_log else of_dispatch) mid = true
    /\ end_ = now w + trace_time mid
    /\ forallb (if dry then is_log else of_pause) post = true
    /\ now w' = end_ + trace_time post
    /\ run' !! "start" = Some (VStr (isoformat start))
    /\ run' !! "end" = Some (VStr (isoformat end_))
    /\ run' !! "duration" = Some (VNum (end_ - start))
    /\ run' !! "status"
       = (try_except activity configuration secrets dry run w).1.1 !! "status".
Proof.
  unfold Executor.try_activity.
  destruct (try_except_emits activity configuration secrets dry run w)
    as (mid & Hmid & Hpmid & Hnmid).
  destruct (try_except activity configuration secrets dry run w)
    as [[run1 p1] w1]. cbn in Hmid, Hnmid. cbn [read_clock fst snd].
  destruct (pause_after_emits pauses false dry
              (World (now w1) (env w1) (trace w1 ++ [EvUtcnow (now w1)])))
    as (post & Hpost & Hppost & Hnpost).
  intros Heq. exists mid, post, (now w1).
  assert (Hw' : w' = (pause_after pauses false dry
              (World (now w1) (env w1) (trace w1 ++ [EvUtcnow (now w1)]))).2).
  { destruct (pause_after pauses false dry _) as [[u|e] w3];
      by inversion Heq. }
  assert (Hrun' : run' = <["duration" := VNum (now w1 - start)]>
            (<["end" := VStr (isoformat (now w1))]>
               (<["start" := VStr (isoformat start)]> run1))).
  { destruct (pause_after pauses false dry _) as [[u|e] w3];
      by inversion Heq. }
  rewrite <- Hw' in Hpost, Hnpost. cbn in Hpost, Hnpost.
  rewrite Hpost, Hmid, Hrun'. rewrite <- !app_assoc. cbn.
  repeat split; try done; try lia; by simplify_map_eq.
Qed.

Lemma leave_try_emits (P : event -> bool)
    (statement : world -> (Run * option exn) * world) :
  emits P statement -> emits P (leave_try statement).
Proof.
  intros Hs.
  pose (f := fun x : Run * option exn =>
               match x with
               | (run, None) => Returned run
               | (_, Some e) => Raised e
               end).
  apply (emits_ext P (fun w => (f (statement w).1, (statement w).2))).
  - intros w. unfold leave_try, f. by destruct (statement w) as [[r [e|]] w1].
  - by apply emits_result.
Qed.

Lemma try_activity_emits (activity : Activity)
    (configuration secrets : value) (dry : bool) (pauses : value) (start : Z)
    (run : Run) :
  emits (if dry then dry_event else fun _ => true)
    (try_activity activity configuration secrets dry pauses start run).
Proof.
  intros w.
  destruct (try_activity activity configuration secrets dry pauses start run w)
    as [[run' pending] w'] eqn:Heq.
  destruct (try_activity_timeline _ _ _ _ _ _ _ _ _ _ _ Heq)
    as (mid & post & end_ & Htr & Hmid & Hend & Hpost & Hnow & _).
  exists (mid ++ [EvUtcnow end_] ++ post). cbn [snd].
  rewrite Htr, !forallb_app, !trace_time_app. cbn.
  set (P := if dry then dry_event else fun _ => true).
  assert (HP : forall ev,
             (if dry then is_log else of_dispatch) ev = true
             \/ (if dry then is_log else of_pause) ev = true ->
             P ev = true).
  { intros ev. unfold P. destruct dry; [|done]. by destruct ev; intros []. }
  rewrite (forallb_weaken _ P _ (fun ev H => HP ev (or_introl H)) Hmid).
  rewrite (forallb_weaken _ P _ (fun ev H => HP ev (or_intror H)) Hpost).
  repeat split; [|lia]. unfold P. by destruct dry.
Qed.

Lemma execute_activity_block_emits (activity : Activity)
    (configuration secrets : value) (dry : bool) :
  emits (if dry then dry_event else fun _ => true)
    (execute_activity_block activity configuration secrets dry).
Proof.
  unfold Executor.execute_activity_block.
  apply emits_bind.
  { eapply emits_weaken; [|apply pause_before_emits].
    intros ev. destruct dry; [by destruct ev | done]. }
  intros _. apply emits_bind.
  { eapply emits_weaken; [|apply announce_emits].
    intros ev. destruct dry; [by destruct ev | done]. }
  intros _. apply emits_bind.
  { apply emits_utcnow. by destruct dry. }
  intros start. apply leave_try_emits, try_activity_emits.
Qed.

Lemma execute_activity_emits (experiment : Experiment) (activity : Activity)
    (configuration secrets : value) (dry : bool) :
  emits (if dry then dry_event else fun _ => true)
    (execute_activity experiment activity configuration secrets dry).
Proof.
  set (P := if dry then dry_event else fun _ => true).
  assert (HPin : forall t, P (EvControlsEnter "activity" t) = true)
    by (intros; unfold P; by destruct dry).
  assert (HPout : forall st t, P (EvControlsExit "activity" st t) = true)
    by (intros; unfold P; by destruct dry).
  unfold Executor.execute_activity.
  destruct (resolve lookup_activity activity) as [resolved|e];
    [|apply emits_nothing].
  set (control := controls "activity" experiment resolved configuration
                    secrets).
  pose (after_block := fun (entered : Activity) (x : outcome Run)
                          (w : world) =>
    match x with
    | Returned run =>
        call (EvControlsExit "activity" (Some (VDict run)))
          (cm_exit control entered run) w
    | Raised e =>
        match call (EvControlsExit "activity" None)
                (cm_exit_raising control entered e) w with
        | (Returned _, w) => (Raised e : outcome Run, w)
        | (Raised e', w) => (Raised e', w)
        end
    end).
  pose (after_enter := fun (x : outcome Activity) (w : world) =>
    match x with
    | Raised e => (Raised e : outcome Run, w)
    | Returned entered =>
        after_block entered
          (execute_activity_block entered configuration secrets dry w).1
          (execute_activity_block entered configuration secrets dry w).2
    end).
  apply (emits_ext P (fun w =>
           after_enter
             (call (EvControlsEnter "activity") (cm_enter control) w).1
             (call (EvControlsEnter "activity") (cm_enter control) w).2)).
  { intros w. unfold after_enter, after_block.
    destruct (call (EvControlsEnter "activity") (cm_enter control) w)
      as [[entered|e] w1]; [|done]. cbn [fst snd].
    by destruct (execute_activity_block entered configuration secrets dry w1)
      as [[run|e] w2]. }
  apply (emits_then P _ after_enter); [by apply emits_call|].
  intros [entered|e]; [|apply emits_nothing]. unfold after_enter.
  apply (emits_then P _ (after_block entered));
    [apply execute_activity_block_emits|].
  intros [run|e]; unfold after_block; [by apply emits_call|].
  apply (emits_ext P (fun w =>
           (match (call (EvControlsExit "activity" None)
                     (cm_exit_raising control entered e) w).1 with
            | Returned _ => Raised e : outcome Run
            | Raised e' => Raised e'
            end,
            (call (EvControlsExit "activity" None)
               (cm_exit_raising control entered e) w).2))).
  { intros w.
    by destruct (call (EvControlsExit "activity" None)
                   (cm_exit_raising control entered e) w) as [[u|e'] w1]. }
  apply (emits_result P
           (call (EvControlsExit "activity" None)
              (cm_exit_raising control entered e))
           (fun x => match x with
                     | Returned _ => Raised e : outcome Run
                     | Raised e' => Raised e'
                     end)).
  by apply emits_call.
Qed.

(** The time a dispatch takes is the time its provider call takes. *)
Lemma dispatch_time (dry : bool) (mid : list event) :
  forallb (if dry then is_log else of_dispatch) mid = true ->
  trace_time mid = trace_time (filter (fun ev => is_provider ev = true) mid)
  /\ forallb (fun ev => negb (is_sleep ev)) mid = true
  /\ (dry = true -> trace_time mid = 0).
Proof.
  induction mid as [|ev mid IH]; [done|].
  cbn [forallb]. rewrite andb_true_iff. intros [Hev Hmid].
  destruct (IH Hmid) as (IH1 & IH2 & IH3).
  assert (Hcons : forall evs, trace_time (ev :: evs)
                              = event_time ev + trace_time evs)
    by reflexivity.
  rewrite Hcons, IH2, andb_true_r.
  destruct (is_provider ev) eqn:Hprov.
  - rewrite filter_cons_True, Hcons, IH1 by done.
    destruct dry; destruct ev; try discriminate. done.
  - rewrite filter_cons_False by (rewrite Hprov; discriminate).
    assert (event_time ev = 0 /\ is_sleep ev = false) as [-> ->]
      by (destruct dry; destruct ev; try discriminate; done).
    split; [lia|]. split; [done|]. intros Hdry. rewrite (IH3 Hdry). lia.
Qed.

(** The block under the control scope, when it hands a run over: what it
    did before reading the clock for [start], between the two readings,
    and after reading it for [end]. *)
Lemma execute_activity_block_timeline (activity : Activity)
    (configuration secrets : value) (dry : bool) (run : Run) (w w' : world) :
  execute_activity_block activity configuration secrets dry w
  = (Returned run, w') ->
  exists (pre mid post : list event) (start end_ : Z),
    trace w' = trace w ++ pre ++ [EvUtcnow start] ++ mid ++ [EvUtcnow end_]
                 ++ post
    /\ forallb (if dry then is_log else of_pause) pre = true
    /\ start = now w + trace_time pre
    /\ forallb (if dry then is_log else of_dispatch) mid = true
    /\ end_ = start + trace_time mid
    /\ forallb (if dry then is_log else of_pause) post = true
    /\ now w' = end_ + trace_time post
    /\ run !! "start" = Some (VStr (isoformat start))
    /\ run !! "end" = Some (VStr (isoformat end_))
    /\ run !! "duration" = Some (VNum (end_ - start)).
Proof.
  unfold Executor.execute_activity_block, mbind, M_bind.
  set (pauses := dict_get_default activity "pauses" (VDict ∅)).
  destruct (pause_before_emits pauses dry w) as (pre1 & Ht1 & Hp1 & Hn1).
  destruct (pause_before pauses dry w) as [[[]|e] w1]; [|discriminate].
  cbn in Ht1, Hn1.
  destruct (announce_emits activity w1) as (pre2 & Ht2 & Hp2 & Hn2).
  destruct (announce activity w1) as [[[]|e] w2]; [|discriminate].
  cbn in Ht2, Hn2. cbn [utcnow read_clock].
  unfold leave_try.
  destruct (try_activity _ _ _ _ _ _ _ _) as [[run1 [e|]] w3] eqn:Htry;
    [discriminate|].
  intros Heq. inversion Heq; subst run1 w3. clear Heq.
  destruct (try_activity_timeline _ _ _ _ _ _ _ _ _ _ _ Htry)
    as (mid & post & end_ & Htr & Hmid & Hend & Hpost & Hnow & Hs & He & Hd
        & _).
  cbn in Htr, Hend.
  exists (pre1 ++ pre2), mid, post, (now w2), end_.
  rewrite Htr, Ht2, Ht1, forallb_app, trace_time_app, <- !app_assoc.
  rewrite (forallb_weaken is_log (if dry then is_log else of_pause) pre2);
    [|intros ev; destruct dry; [done | by destruct ev] | done].
  rewrite Hp1. repeat split; try done; lia.
Qed.

(** What a call of [execute_activity] that returns has done, in order:
    it opened the control scope, ran the block, and closed the scope on
    the run of the block; the caller gets what the after hooks made of
    that run. *)
Lemma execute_activity_timeline (experiment : Experiment)
    (activity : Activity) (configuration secrets : value) (dry : bool)
    (run' : Run) (w w' : world) :
  execute_activity experiment activity configuration secrets dry w
  = (Returned run', w') ->
  exists (resolved : Activity) (run : Run) (pre mid post : list event)
         (start end_ : Z) (t_in t_out : N),
    resolve lookup_activity activity = Returned resolved
    /\ trace w' = trace w ++ [EvControlsEnter "activity" t_in] ++ pre
                    ++ [EvUtcnow start] ++ mid ++ [EvUtcnow end_] ++ post
                    ++ [EvControlsExit "activity" (Some (VDict run)) t_out]
    /\ forallb (if dry then is_log else of_pause) pre = true
    /\ forallb (if dry then is_log else of_dispatch) mid = true
    /\ forallb (if dry then is_log else of_pause) post = true
    /\ end_ = start + trace_time mid
    /\ now w' = now w + Z.of_N t_in + trace_time pre + trace_time mid
                + trace_time post + Z.of_N t_out
    /\ run !! "start" = Some (VStr (isoformat start))
    /\ run !! "end" = Some (VStr (isoformat end_))
    /\ run !! "duration" = Some (VNum (end_ - start))
    /\ exists entered e t,
         result (cm_exit (controls "activity" experiment resolved
                            configuration secrets) entered run e t)
         = Returned run'.
Proof.
  unfold Executor.execute_activity.
  destruct (resolve lookup_activity activity) as [resolved|e];
    [|discriminate].
  set (control := controls "activity" experiment resolved configuration
                    secrets).
  unfold call at 1.
  destruct (result (cm_enter control (env w) (now w))) as [entered|e];
    [|discriminate].
  destruct (execute_activity_block entered configuration secrets dry _)
    as [[run|e] w2] eqn:Hblock.
  2:{ intros Heq. repeat case_match; simplify_eq. }
  destruct (execute_activity_block_timeline _ _ _ _ _ _ _ Hblock)
    as (pre & mid & post & start & end_ & Htr & Hpre & Hstart & Hmid & Hend
        & Hpost & Hnow & Hs & He & Hd).
  cbn in Htr, Hstart. unfold call. intros Heq. inversion Heq as [[Hres Hw']].
  exists resolved, run, pre, mid, post, start, end_,
    (elapsed (cm_enter control (env w) (now w))),
    (elapsed (cm_exit control entered run (env w2) (now w2))).
  cbn. rewrite Htr.
  repeat split; try done; try lia.
  - rewrite <- !app_assoc. cbn. by rewrite <- !app_assoc.
  - exists entered, (env w2), (Executor.now w2). done.
Qed.

(** C10.  A run that [execute_activity] returns was stamped as follows:
    [start] is the clock after the scope was opened and the pause before
    was slept, [end] is the clock before the pause after is slept, and
    between the two readings the executor did nothing but dispatch to the
    provider: no sleep.  So [duration = end - start] is the time the
    provider call took, and none of the pauses.  (The returned run is the
    stamped one, as the after hooks of the scope leave it.) *)
Theorem duration_excludes_pauses (experiment : Experiment)
    (activity : Activity) (configuration secrets : value) (dry : bool)
    (run' : Run) (w w' : world) :
  execute_activity experiment activity configuration secrets dry w
  = (Returned run', w') ->
  exists (resolved : Activity) (run : Run) (pre mid post : list event)
         (start end_ : Z) (t_in t_out : N),
    resolve lookup_activity activity = Returned resolved
    /\ trace w' = trace w ++ [EvControlsEnter "activity" t_in] ++ pre
                    ++ [EvUtcnow start] ++ mid ++ [EvUtcnow end_] ++ post
                    ++ [EvControlsExit "activity" (Some (VDict run)) t_out]
    /\ forallb of_pause pre = true
    /\ forallb of_dispatch mid = true
    /\ forallb (fun ev => negb (is_sleep ev)) mid = true
    /\ forallb of_pause post = true
    /\ run !! "start" = Some (VStr (isoformat start))
    /\ run !! "end" = Some (VStr (isoformat end_))
    /\ run !! "duration" = Some (VNum (end_ - start))
    /\ end_ - start
       = trace_time (filter (fun ev => is_provider ev = true) mid)
    /\ exists entered e t,
         result (cm_exit (controls "activity" experiment resolved
                            configuration secrets) entered run e t)
         = Returned run'.
Proof.
  intros Heq.
  destruct (execute_activity_timeline _ _ _ _ _ _ _ _ Heq)
    as (resolved & run & pre & mid & post & start & end_ & t_in & t_out
        & Hres & Htr & Hpre & Hmid & Hpost & Hend & Hnow & Hs & He & Hd
        & Hexit).
  destruct (dispatch_time dry mid Hmid) as (Htime & Hnosleep & _).
  exists resolved, run, pre, mid, post, start, end_, t_in, t_out.
  assert (Hlog : forall ev, is_log ev = true -> of_pause ev = true)
    by (by intros []).
  assert (Hlog' : forall ev, is_log ev = true -> of_dispatch ev = true)
    by (by intros []).
  repeat split; try done; try lia.
  - destruct dry; [by eapply forallb_weaken | done].
  - destruct dry; [by eapply forallb_weaken | done].
  - destruct dry; [by eapply forallb_weaken | done].
Qed.

(** C3.  With [dry] set, [execute_activity] leaves nothing but log lines,
    clock readings and the opening and closing of the control scope: it
    calls no provider and sleeps no pause, and the only time that passes is
    spent in the control hooks.  The run handed to the scope has a
    duration of zero, which is below the sum of the configured pauses of
    any activity that configures one. *)
Theorem dry_run_neither_runs_nor_sleeps (experiment : Experiment)
    (activity : Activity) (configuration secrets : value) (w : world) :
  exists evs : list event,
    trace (execute_activity experiment activity configuration secrets true
             w).2 = trace w ++ evs
    /\ forallb dry_event evs = true
    /\ forallb (fun ev => negb (is_provider ev) && negb (is_sleep ev)) evs
       = true
    /\ now (execute_activity experiment activity configuration secrets true
              w).2
       = now w + trace_time (filter (fun ev => is_controls ev = true) evs)
    /\ forall run' : Run,
         (execute_activity experiment activity configuration secrets true
            w).1 = Returned run' ->
         exists (run : Run) (t_out : N),
           last evs = Some (EvControlsExit "activity" (Some (VDict run)) t_out)
           /\ exists d : Z,
               run !! "duration" = Some (VNum d)
               /\ d = 0
               /\ forall configured : Activity,
                    0 < configured_pauses configured ->
                    d < configured_pauses configured.
Proof.
  destruct (execute_activity_emits experiment activity configuration secrets
              true w) as (evs & Htr & Hdry & Hnow).
  exists evs. split; [done|]. split; [done|].
  split; [eapply forallb_weaken; [|exact Hdry]; by intros []|].
  split.
  { rewrite Hnow. f_equal. clear -Hdry.
    induction evs as [|ev evs IH]; [done|].
    cbn [forallb] in Hdry. apply andb_true_iff in Hdry as [Hev Hevs].
    specialize (IH Hevs).
    assert (Hcons : forall l, trace_time (ev :: l)
                              = event_time ev + trace_time l)
      by reflexivity.
    rewrite Hcons, IH.
    destruct ev; try discriminate;
      (rewrite filter_cons_True by done) ||
      (rewrite filter_cons_False by discriminate);
      rewrite ?Hcons; cbn; lia. }
  intros run' Hret.
  destruct (execute_activity experiment activity configuration secrets true w)
    as [o w'] eqn:Heq. cbn in Hret, Htr. subst o.
  destruct (execute_activity_timeline _ _ _ _ _ _ _ _ Heq)
    as (resolved & run & pre & mid & post & start & end_ & t_in & t_out
        & _ & Htr' & _ & Hmid & _ & Hend & _ & _ & _ & Hd & _).
  destruct (dispatch_time true mid Hmid) as (_ & _ & Hzero).
  rewrite Htr in Htr'. apply app_inv_head in Htr'.
  exists run, t_out. split.
  { rewrite Htr'. rewrite !app_assoc. apply last_snoc. }
  exists (end_ - start). rewrite (Hzero eq_refl) in Hend.
  repeat split; [done | lia | intros; lia].
Qed.

(** A reference that the index does not know raises before anything
    else happens. *)
Lemma execute_activity_dangling (experiment : Experiment)
    (activity : Activity) (configuration secrets : value) (dry : bool)
    (w : world) :
  truthy (dict_get activity "ref") = true ->
  lookup_activity (dict_get activity "ref") = None ->
  execute_activity experiment activity configuration secrets dry w
  = (Raised (ActivityFailed "could not find referenced activity '{r}'"
               [dict_get activity "ref"]), w).
Proof.
  intros Href Hlookup. unfold Executor.execute_activity, resolve.
  by rewrite Href, Hlookup.
Qed.

Lemma pause_before_returns (pauses : gmap string value) (dry : bool)
    (w : world) :
  sleepable (dict_get pauses "before") = true ->
  exists w1, pause_before (VDict pauses) dry w = (Returned tt, w1).
Proof.
  unfold sleepable, pause_before, mbind, M_bind, lift, py_get.
  destruct (truthy (dict_get pauses "before")) eqn:Htruthy; [|by eexists].
  cbn. destruct dry; cbn; [by eexists|]. unfold time_sleep.
  destruct (dict_get pauses "before") as [|b|n| | |]; try discriminate.
  - by eexists.
  - cbn. intros Hn. destruct (n <? 0) eqn:Hneg; [lia|]. by eexists.
Qed.

Lemma pause_after_returns (pauses : gmap string value) (dry : bool)
    (w : world) :
  sleepable (dict_get pauses "after") = true ->
  exists w1, pause_after (VDict pauses) false dry w = (Returned tt, w1).
Proof.
  unfold sleepable, pause_after, mbind, M_bind, lift, py_get.
  rewrite andb_true_r.
  destruct (truthy (dict_get pauses "after")) eqn:Htruthy; [|by eexists].
  cbn. destruct dry; cbn; [by eexists|]. unfold time_sleep.
  destruct (dict_get pauses "after") as [|b|n| | |]; try discriminate.
  - by eexists.
  - cbn. intros Hn. destruct (n <? 0) eqn:Hneg; [lia|]. by eexists.
Qed.

Lemma announce_returns (activity : Activity) (t : string) (w : world) :
  activity !! "type" = Some (VStr t) ->
  exists w1, announce activity w = (Returned tt, w1).
Proof.
  intros Htype. unfold announce, mbind, M_bind, lift. cbn. rewrite Htype. cbn.
  destruct (truthy (dict_get activity "background")); by eexists.
Qed.

Lemma runnable_inv (activity : Activity) :
  runnable activity = true ->
  exists (t : string) (pauses : gmap string value),
    activity !! "type" = Some (VStr t)
    /\ dict_get_default activity "pauses" (VDict ∅) = VDict pauses
    /\ sleepable (dict_get pauses "before") = true
    /\ sleepable (dict_get pauses "after") = true.
Proof.
  unfold runnable. rewrite andb_true_iff. intros [Htype Hpauses].
  destruct (activity !! "type") as [[| | |t| |]|]; try discriminate.
  destruct (dict_get_default activity "pauses" (VDict ∅))
    as [| | | | |pauses]; try discriminate.
  apply andb_true_iff in Hpauses as [Hb Ha]. by exists t, pauses.
Qed.

(** The block of a runnable activity whose dispatch raises: a failure of
    the activity is written into the run, which is handed over; any other
    error leaves the block. *)
Lemma execute_activity_block_raising (activity : Activity)
    (configuration secrets : value) (w : world) :
  runnable activity = true ->
  (forall w1, exists x w2,
      run_activity activity configuration secrets w1 = (Raised x, w2)) ->
  exists (x : exn) (w' : world) (run : Run),
    (exists w1 w2,
        run_activity activity configuration secrets w1 = (Raised x, w2))
    /\ execute_activity_block activity configuration secrets false w
       = (if is_ActivityFailed x then Returned run else Raised x, w')
    /\ (is_ActivityFailed x = true ->
        run !! "status" = Some (VStr "failed")
        /\ run !! "exception" = Some (format_exception x)
        /\ run !! "output" = Some VNone).
Proof.
  intros Hrunnable Hraises.
  destruct (runnable_inv _ Hrunnable) as (t & pauses & Htype & Hpauses & Hb & Ha).
  unfold Executor.execute_activity_block, mbind, M_bind. rewrite Hpauses.
  destruct (pause_before_returns pauses false w Hb) as [w1 ->].
  destruct (announce_returns activity t w1 Htype) as [w2 ->].
  cbn [utcnow read_clock].
  unfold leave_try, Executor.try_activity, Executor.try_except. cbn [negb].
  match goal with
  | |- context [run_activity activity configuration secrets ?w3] =>
      destruct (Hraises w3) as (x & w4 & Hrun)
  end.
  rewrite Hrun. exists x.
  destruct (is_ActivityFailed x) eqn:HAF; cbn [read_clock fst snd logger emit].
  - match goal with
    | |- context [pause_after (VDict pauses) false false ?w5] =>
        destruct (pause_after_returns pauses false w5 Ha) as [w6 ->]
    end.
    eexists _, _. split; [by eauto|]. split; [reflexivity|].
    intros _. by simplify_map_eq.
  - match goal with
    | |- context [pause_after (VDict pauses) false false ?w5] =>
        destruct (pause_after_returns pauses false w5 Ha) as [w6 ->]
    end.
    eexists _, ∅. split; [by eauto|]. split; [reflexivity|]. discriminate.
Qed.

Lemma resolve_full (activity : Activity) :
  truthy (dict_get activity "ref") = false ->
  resolve lookup_activity activity = Returned activity.
Proof. intros Href. unfold resolve. by rewrite Href. Qed.



#[local] Abbreviation run_activities_yield :=
  (run_activities_yield lookup_activity controls run_python_activity
     run_process_activity run_http_activity isoformat format_exception).
#[local] Abbreviation next :=
  (next lookup_activity controls run_python_activity run_process_activity
     run_http_activity isoformat format_exception).
#[local] Abbreviation collect :=
  (collect lookup_activity controls run_python_activity run_process_activity
     run_http_activity isoformat format_exception).
#[local] Abbreviation item_of :=
  (item_of lookup_activity controls run_python_activity run_process_activity
     run_http_activity isoformat format_exception).

Lemma background_truthy (activity : Activity) :
  background_typed activity = true ->
  truthy (dict_get activity "background") = in_background activity.
Proof.
  unfold background_typed, in_background, dict_get.
  by destruct (activity !! "background") as [[|[]| | | |]|].
Qed.

Lemma yield_in_background (experiment : Experiment)
    (configuration secrets : value) (pool : executor) (dry : bool)
    (activity : Activity) (w : world) :
  background_typed activity = true ->
  in_background activity = true ->
  run_activities_yield experiment configuration secrets pool dry
    (VDict activity) w
  = (Returned
       (Pending
          (execute_activity experiment activity configuration secrets dry)),
     World (now w) (env w)
       (trace w ++ [EvLog Debug "activity will run in the background" [];
                    EvSubmit activity])).
Proof.
  intros Htyped Hbg. unfold Executor.run_activities_yield.
  unfold mbind, M_bind, lift, py_get.
  rewrite (background_truthy _ Htyped), Hbg. cbn.
  by rewrite <- app_assoc.
Qed.

Lemma yield_in_foreground (experiment : Experiment)
    (configuration secrets : value) (pool : executor) (dry : bool)
    (activity : Activity) (w : world) :
  background_typed activity = true ->
  in_background activity = false ->
  run_activities_yield experiment configuration secrets pool dry
    (VDict activity) w
  = match execute_activity experiment activity configuration secrets dry w
    with
    | (Returned run, w') => (Returned (Completed run), w')
    | (Raised e, w') => (Raised e, w')
    end.
Proof.
  intros Htyped Hbg. unfold Executor.run_activities_yield.
  unfold mbind, M_bind, lift, py_get.
  rewrite (background_truthy _ Htyped), Hbg.
  by destruct (execute_activity _ _ _ _ _ w) as [[run|e] w'].
Qed.

Lemma collect_looping (experiment : Experiment)
    (configuration secrets : value) (pool : executor) (dry : bool)
    (activities : list Activity) :
  Forall (fun a => background_typed a = true) activities ->
  forall (fuel : nat) (w : world),
    (length activities < fuel)%nat ->
    exists (o : outcome (list item)) (w' : world),
      collect experiment configuration secrets pool dry fuel
        (Looping (VDict <$> activities)) w = (Some o, w')
      /\ forall items, o = Returned items ->
           Forall2 (item_of experiment configuration secrets dry)
             activities items.
Proof.
  induction 1 as [|a activities Ha Hrest IH]; intros fuel w Hfuel.
  - destruct fuel as [|fuel]; [cbn in Hfuel; lia|]. cbn.
    eexists _, _. split; [reflexivity|].
    intros items [= <-]. constructor.
  - destruct fuel as [|fuel]; [cbn in Hfuel; lia|].
    cbn [Executor.collect Executor.next fmap list_fmap].
    destruct (in_background a) eqn:Hbg.
    + rewrite (yield_in_background _ _ _ _ _ _ _ Ha Hbg).
      match goal with
      | |- context [collect _ _ _ _ _ fuel _ ?w1] =>
          destruct (IH fuel w1 ltac:(cbn in Hfuel; lia))
            as (o & w' & -> & Hitems)
      end.
      destruct o as [items|e]; eexists _, _; (split; [reflexivity|]).
      * intros ? [= <-]. constructor; [|by apply Hitems].
        unfold item_of. by rewrite Hbg.
      * discriminate.
    + rewrite (yield_in_foreground _ _ _ _ _ _ _ Ha Hbg).
      destruct (execute_activity experiment a configuration secrets dry w)
        as [[run|e] w1] eqn:Hrun.
      * destruct (IH fuel w1 ltac:(cbn in Hfuel; lia))
          as (o & w' & -> & Hitems).
        destruct o as [items|e]; eexists _, _; (split; [reflexivity|]).
        -- intros ? [= <-]. constructor; [|by apply Hitems].
           unfold item_of. rewrite Hbg. eauto.
        -- discriminate.
      * eexists _, _. split; [reflexivity|]. discriminate.
Qed.


End Facts.
End ExecutorFacts.

(** ** The fixtures, run *)

Module ExecutorExamples.
Import Executor Fixtures ExecutorFacts.

(** C10 on the paused probe: 5 seconds of pause, 3 of provider, 30 of
    pause; the run that comes back lasted 3. *)
Lemma duration_excludes_pauses_witness :
  exists (run' : Run) (w' : @world marks),
    paused_run = (Returned run', w')
    /\ run' !! "duration" = Some (VNum 3)
    /\ now w' = 138
    /\ exists (resolved : Activity) (run : Run) (pre mid post : list event)
              (start end_ : Z) (t_in t_out : N),
         resolve no_index paused_probe = Returned resolved
         /\ trace w' = trace world0 ++ [EvControlsEnter "activity" t_in]
                         ++ pre ++ [EvUtcnow start] ++ mid
                         ++ [EvUtcnow end_] ++ post
                         ++ [EvControlsExit "activity" (Some (VDict run))
                               t_out]
         /\ forallb of_pause pre = true
         /\ forallb of_dispatch mid = true
         /\ forallb (fun ev => negb (is_sleep ev)) mid = true
         /\ forallb of_pause post = true
         /\ run !! "start" = Some (VStr (isoformat start))
         /\ run !! "end" = Some (VStr (isoformat end_))
         /\ run !! "duration" = Some (VNum (end_ - start))
         /\ end_ - start
            = trace_time (filter (fun ev => is_provider ev = true) mid)
         /\ exists entered e t,
              result (cm_exit (no_controls "activity" ∅ resolved VNone VNone)
                        entered run e t)
              = Returned run'.
Proof.
  assert (Hreturns : returns paused_run = true) by (vm_compute; reflexivity).
  assert (Hduration : run_of paused_run !! "duration" = Some (VNum 3))
    by (vm_compute; reflexivity).
  assert (Hnow : now paused_run.2 = 138) by (vm_compute; reflexivity).
  unfold returns, run_of in *.
  destruct paused_run as [[run'|e] w'] eqn:Hrun; [|discriminate].
  exists run', w'. repeat split; try done.
  apply (duration_excludes_pauses no_index no_controls answering answering
           answering isoformat format_exception ∅ paused_probe VNone VNone
           false).
  exact Hrun.
Defined.

(** C3 on the paused probe, dry: the clock does not move, and the
    duration of zero is below the 35 seconds of configured pauses. *)
Lemma dry_run_neither_runs_nor_sleeps_witness :
  configured_pauses paused_probe = 35
  /\ exists evs : list event,
    trace (execute_activity no_index no_controls answering answering
             answering isoformat format_exception ∅ paused_probe VNone VNone
             true world0).2 = trace world0 ++ evs
    /\ forallb dry_event evs = true
    /\ forallb (fun ev => negb (is_provider ev) && negb (is_sleep ev)) evs
       = true
    /\ now (execute_activity no_index no_controls answering answering
              answering isoformat format_exception ∅ paused_probe VNone VNone
              true world0).2
       = now world0 + trace_time (filter (fun ev => is_controls ev = true) evs)
    /\ forall run' : Run,
         (execute_activity no_index no_controls answering answering
            answering isoformat format_exception ∅ paused_probe VNone VNone
            true world0).1 = Returned run' ->
         exists (run : Run) (t_out : N),
           last evs = Some (EvControlsExit "activity" (Some (VDict run)) t_out)
           /\ exists d : Z,
               run !! "duration" = Some (VNum d)
               /\ d = 0
               /\ forall configured : Activity,
                    0 < configured_pauses configured ->
                    d < configured_pauses configured.
Proof.
  split; [vm_compute; reflexivity|].
  apply (dry_run_neither_runs_nor_sleeps no_index no_controls answering
           answering answering isoformat format_exception ∅ paused_probe
           VNone VNone world0).
Defined.

Lemma no_controls_keep_documents (experiment : Experiment)
    (activity : Activity) (configuration secrets : value) :
  hooks_keep_documents
    (no_controls "activity" experiment activity configuration secrets)
    activity.
Proof. by repeat split. Qed.





End ExecutorExamples.

Module OrchestratorFacts.
Import Executor Controls Orchestrator ExecutorFacts.

Section Registry.

Context {E : Type}.
Variable import_control : string -> value -> option (@control E).

Lemma initialize_controls_registry (candidates : list control)
    (experiment : Experiment) (configuration secrets settings : value) :
  forall (e : E) (t : Z),
  exists registry : list control,
    result (initialize_controls candidates experiment configuration secrets
              settings e t) = Returned registry
    /\ sublist registry candidates
    /\ (forall c, init_fails c experiment configuration secrets settings ->
                  c ∉ registry)
    /\ (forall c, c ∈ candidates ->
                  init_returns c experiment configuration secrets settings ->
                  c ∈ registry).
Proof.
  induction candidates as [|c candidates IH]; intros e t.
  - exists []. cbn. split; [done|]. split; [constructor|]. split.
    + intros c _ Hc. by apply elem_of_nil in Hc.
    + intros c Hc. by apply elem_of_nil in Hc.
  - cbn [initialize_controls]. unfold ext_bind at 1, ext_then at 1.
    set (first := initialize_control c experiment configuration secrets
                    settings e t).
    assert (Hfirst : exists initialized : bool,
               result first = Returned initialized
               /\ (init_fails c experiment configuration secrets settings ->
                   initialized = false)
               /\ (init_returns c experiment configuration secrets settings ->
                   initialized = true)).
    { unfold first, initialize_control, init_fails, init_returns.
      destruct (configure_control c) as [configure|].
      - unfold ext_then, ext_ret. cbn.
        destruct (result (configure _ _ _ _ _ e t)) as [[]|x] eqn:Hc.
        + exists true. split; [done|]. split; [|done].
          intros (f & [= <-] & Hf). destruct (Hf e t) as [x Hx]. congruence.
        + exists false. split; [done|]. split; [done|].
          intros Hok. specialize (Hok e t). congruence.
      - exists true. split; [done|]. split; [|done].
        by intros (f & Hf & _). }
    destruct Hfirst as (initialized & -> & Hfails & Hreturns).
    unfold ext_bind, ext_then. cbn.
    match goal with
    | |- context [initialize_controls candidates _ _ _ _ ?e' ?t'] =>
        destruct (IH e' t') as (registry & -> & Hsub & Hout & Hin)
    end.
    cbn. exists (if initialized then c :: registry else registry).
    split; [done|]. split; [|split].
    + destruct initialized; [by apply sublist_skip | by apply sublist_cons].
    + intros c' Hc'. destruct initialized; [|by apply Hout].
      rewrite not_elem_of_cons. split; [|by apply Hout].
      intros ->. by specialize (Hfails Hc').
    + intros c' Hc' Hok. apply elem_of_cons in Hc' as [->|Hc'].
      * rewrite (Hreturns Hok). by left.
      * destruct initialized; [right|]; by apply Hin.
Qed.

End Registry.

Section Journal.

Context {E : Type}.
#[local] Abbreviation world := (@world E).

Variable import_control : string -> value -> option (@control E).
Variable run_python_activity : Activity -> value -> value -> @external E value.
Variable run_process_activity : Activity -> value -> value -> @external E value.
Variable run_http_activity : Activity -> value -> value -> @external E value.
Variable isoformat : Z -> string.
Variable format_exception : exn -> value.
Variable within_tolerance : value -> value -> bool.
Variable getenv : string -> option string.

#[local] Abbreviation with_scope := (@with_scope E import_control).
#[local] Abbreviation run_hypothesis :=
  (run_hypothesis import_control run_python_activity run_process_activity
     run_http_activity isoformat format_exception within_tolerance).
#[local] Abbreviation run_method :=
  (run_method import_control run_python_activity run_process_activity
     run_http_activity isoformat format_exception).
#[local] Abbreviation run_phases :=
  (run_phases import_control run_python_activity run_process_activity
     run_http_activity isoformat format_exception within_tolerance).
#[local] Abbreviation run_rollbacks :=
  (run_rollbacks import_control run_python_activity run_process_activity
     run_http_activity isoformat format_exception).
#[local] Abbreviation run_journal :=
  (run_journal import_control run_python_activity run_process_activity
     run_http_activity isoformat format_exception within_tolerance).
#[local] Abbreviation run_in_experiment_scope :=
  (run_in_experiment_scope import_control run_python_activity
     run_process_activity run_http_activity isoformat format_exception
     within_tolerance).
#[local] Abbreviation run_experiment :=
  (run_experiment import_control run_python_activity run_process_activity
     run_http_activity isoformat format_exception within_tolerance getenv).

(** A document without controls, under an empty registry, has no effective
    control at the levels whose context is the experiment itself. *)
Lemma no_effective_controls (level : string) (experiment : Experiment) :
  attached_controls import_control experiment = [] ->
  get_context_controls import_control [] level experiment experiment = [].
Proof.
  intros Hnone. unfold get_context_controls. rewrite Hnone.
  by destruct (String.eqb level "experiment").
Qed.

(** A scope without effective controls only brackets its phase. *)
Lemma with_scope_without_controls {S : Type} (encode : S -> value)
    (decode : value -> option S) (registry : list control) (level : string)
    (experiment : Experiment) (context : gmap string value)
    (configuration secrets : value) (body : gmap string value -> M S)
    (w : world) :
  get_context_controls import_control registry level experiment context = [] ->
  (forall state, decode (encode state) = Some state) ->
  with_scope encode decode registry level experiment context configuration
    secrets body w
  = match body context
            (World (now w + 0) (env w) (trace w ++ [EvControlsEnter level 0]))
    with
    | (Returned state, w2) =>
        (Returned state,
         World (now w2 + 0) (env w2)
           (trace w2 ++ [EvControlsExit level (Some (encode state)) 0]))
    | (Raised e, w2) =>
        (Raised e,
         World (now w2 + 0) (env w2)
           (trace w2 ++ [EvControlsExit level None 0]))
    end.
Proof.
  intros Hnone Hdecode. unfold Orchestrator.with_scope. rewrite Hnone.
  cbn [apply_before apply_after]. unfold call, ext_ret. cbn.
  destruct (body context _) as [[state|e] w2]; [|done].
  by rewrite Hdecode.
Qed.

Lemma run_rollbacks_returns (registry : list control)
    (experiment : Experiment) (configuration secrets : value) (dry : bool)
    (rollbacks : list value) (w : world) :
  exists runs w',
    run_rollbacks registry experiment configuration secrets dry rollbacks w
    = (Returned runs, w').
Proof.
  revert w. induction rollbacks as [|rollback rollbacks IH]; intros w.
  - by eexists _, _.
  - cbn [Orchestrator.run_rollbacks].
    destruct rollback; try by eexists _, _.
    destruct (execute _ _ _ _ _ _ _ _ _ _ _ _ _) as [[run|e] w1];
      [|by eexists _, _].
    destruct (IH w1) as (runs & w2 & ->). by eexists _, _.
Qed.

(** The phases do not touch the rollbacks of the journal. *)
Lemma run_phases_keeps_rollbacks (registry : list control)
    (experiment : Experiment) (configuration secrets : value)
    (pool : executor) (dry : bool) (journal journal' : gmap string value)
    (pending : option exn) (w w' : world) :
  run_phases registry experiment configuration secrets pool dry journal w
  = ((journal', pending), w') ->
  journal' !! "rollbacks" = journal !! "rollbacks".
Proof.
  unfold Orchestrator.run_phases. intros Heq.
  repeat case_match; simplify_eq; by simplify_map_eq.
Qed.

(** A run without controls whose phases raise: the caller still gets a
    journal, whose status tells the error; after an interruption by the
    operating system nothing is run any more, the journal is stamped and
    the scope of the experiment closed. *)
Lemma run_experiment_when_phases_raise (experiment : Experiment)
    (settings : value) (pool : executor) (configuration : value) (e : exn)
    (w : world) :
  load_configuration getenv experiment = Returned configuration ->
  load_global_controls import_control settings = [] ->
  attached_controls import_control experiment = [] ->
  (forall journal w1, exists journal' w2,
      run_phases [] experiment configuration (dict_get experiment "secrets")
        pool (truthy (dict_get experiment "dry")) journal w1
      = ((journal', Some e), w2)) ->
  exists (journal : gmap string value) (w' : world),
    run_experiment experiment settings pool w = (Returned journal, w')
    /\ journal !! "status" = Some (VStr (status_of e))
    /\ (is_os_interruption e = true ->
        journal !! "rollbacks" = Some (VList [])
        /\ exists journal0 w1 journal1 w2,
             run_phases [] experiment configuration
               (dict_get experiment "secrets") pool
               (truthy (dict_get experiment "dry")) journal0 w1
             = ((journal1, Some e), w2)
             /\ trace w'
                = trace w2
                    ++ [EvUtcnow (now w2);
                        EvControlsExit "experiment" (Some (VDict journal)) 0;
                        EvControlsCleanup 0]).
Proof.
  intros Hcfg Hload Hnone Hphases.
  unfold Orchestrator.run_experiment, mbind, M_bind, lift. rewrite Hcfg.
  unfold call at 1, initialize_global_controls. rewrite Hload.
  cbn [initialize_controls ext_ret result env_after elapsed].
  unfold Orchestrator.run_in_experiment_scope.
  rewrite with_scope_without_controls;
    [|by apply no_effective_controls|done].
  unfold Orchestrator.run_journal. cbn [read_clock].
  match goal with
  | |- context [run_phases [] _ _ _ _ _ ?j ?w1] =>
      destruct (Hphases j w1) as (journal1 & w2 & Hp);
      pose proof (run_phases_keeps_rollbacks _ _ _ _ _ _ _ _ _ _ _ Hp)
        as Hkeeps
  end.
  rewrite Hp. destruct (is_os_interruption e) eqn:Hos.
  - cbn. eexists _, _. split; [reflexivity|].
    split; [by simplify_map_eq|]. intros _. split.
    + rewrite !lookup_insert_ne by done. rewrite Hkeeps.
      by simplify_map_eq.
    + eexists _, _, _, _. split; [exact Hp|].
      by rewrite <- !app_assoc.
  - rewrite with_scope_without_controls;
      [|by apply no_effective_controls|done].
    match goal with
    | |- context [run_rollbacks ?r ?x ?c ?s ?d ?l ?w3] =>
        destruct (run_rollbacks_returns r x c s d l w3) as (runs & w4 & ->)
    end.
    cbn. eexists _, _. split; [reflexivity|].
    split; [by simplify_map_eq|]. discriminate.
Qed.

(** Without a hypothesis, the first entry of the method is the first
    activity to run; if it is a reference to no activity of the document,
    the phases end there with [ActivityFailed]. *)
Lemma run_phases_dangling (experiment : Experiment) (activity : Activity)
    (others : list value) (configuration secrets : value) (pool : executor)
    (dry : bool) :
  attached_controls import_control experiment = [] ->
  dict_get experiment "steady-state-hypothesis" = VNone ->
  dict_get experiment "method" = VList (VDict activity :: others) ->
  truthy (dict_get activity "ref") = true ->
  truthy (dict_get activity "background") = false ->
  lookup_activity experiment (dict_get activity "ref") = None ->
  forall journal (w1 : world), exists journal' w2,
    run_phases [] experiment configuration secrets pool dry journal w1
    = ((journal',
        Some (ActivityFailed "could not find referenced activity '{r}'"
                [dict_get activity "ref"])), w2).
Proof.
  intros Hnone Hhypothesis Hmethod Href Hbackground Hlookup journal w1.
  unfold Orchestrator.run_phases, Orchestrator.run_hypothesis.
  rewrite Hhypothesis. cbn [mret M_ret is_not_none andb].
  unfold Orchestrator.run_method.
  rewrite (no_effective_controls "method" experiment Hnone).
  cbn [apply_before apply_after]. unfold call at 1, ext_ret.
  cbn [result env_after elapsed]. cbn [iterate].
  unfold run_activities, next. rewrite Hmethod. cbn [py_iter].
  unfold run_activities_yield, mbind, M_bind, lift, py_get.
  rewrite Hbackground.
  rewrite (execute_activity_dangling _ _ _ _ _ _ _ _ _ _ _ _ _ Href Hlookup).
  unfold call, ext_ret. cbn. by eexists _, _.
Qed.



(** Whatever the controls, a run whose configuration resolves comes back
    with a journal. *)
Lemma run_experiment_returns (experiment : Experiment) (settings : value)
    (pool : executor) (configuration : value) (w : world) :
  load_configuration getenv experiment = Returned configuration ->
  exists (journal : gmap string value) (w' : world),
    run_experiment experiment settings pool w = (Returned journal, w').
Proof.
  intros Hcfg.
  unfold Orchestrator.run_experiment, mbind, M_bind, lift. rewrite Hcfg.
  unfold call at 1, initialize_global_controls.
  destruct (initialize_controls_registry
              (load_global_controls import_control settings) experiment
              configuration (dict_get experiment "secrets") settings (env w)
              (now w)) as (registry & -> & _).
  unfold Orchestrator.run_in_experiment_scope.
  destruct (with_scope _ _ _ _ _ _ _ _ _ _) as [[journal|e] w1];
    destruct (call _ _ _) as [o w2]; by eexists _, _.
Qed.


End Journal.

End OrchestratorFacts.
Module OrchestratorExamples.
Import Executor Controls Orchestrator Fixtures OrchestratorFacts.


(** The interruption hits the provider of the action of the long pause:
    the phases end there, whatever the journal and the world. *)
Lemma long_pause_phases_are_cut :
  forall journal (w1 : @world marks), exists journal' w2,
    run_phases no_import interrupted interrupted interrupted isoformat
      format_exception any_tolerance [] long_pause_experiment VNone
      (dict_get long_pause_experiment "secrets") (ThreadPoolExecutor 1)
      (truthy (dict_get long_pause_experiment "dry")) journal w1
    = ((journal', Some KeyboardInterrupt), w2).
Proof.
  intros journal w1.
  match goal with
  | |- exists j w, ?phases = _ =>
      assert (Hpending : phases.1.2 = Some KeyboardInterrupt)
        by (vm_compute; reflexivity);
      destruct phases as [[j p] w2]
  end.
  cbn in Hpending. subst p. by eexists _, _.
Qed.



End OrchestratorExamples.

Module ValidationExtras.
Import Validation Fixtures.

Section ValidationExtras.

Variable validate_python_activity : Activity -> outcome unit.
Variable validate_process_activity : Activity -> outcome unit.
Variable validate_http_activity : Activity -> outcome unit.

#[local] Abbreviation ensure_activity_is_valid :=
  (ensure_activity_is_valid validate_python_activity
     validate_process_activity validate_http_activity).
#[local] Abbreviation check_declared_fields :=
  (check_declared_fields validate_python_activity
     validate_process_activity validate_http_activity).
#[local] Abbreviation provider_validator :=
  (matching_validator validate_python_activity validate_process_activity
     validate_http_activity).

Lemma dict_get_empty (k : string) : dict_get ∅ k = VNone.
Proof. unfold dict_get. by rewrite lookup_empty. Qed.

Lemma in_strs_truthy_type (v : value) :
  in_strs v ["probe"; "action"] = true -> truthy v = true.
Proof.
  unfold in_strs. cbn. destruct v; try done. cbn.
  destruct (String.eqb_spec s "probe") as [->|]; [done|].
  destruct (String.eqb_spec s "action") as [->|]; done.
Qed.

Lemma in_strs_truthy_provider (v : value) :
  in_strs v ["python"; "process"; "http"] = true -> truthy v = true.
Proof.
  unfold in_strs. cbn. destruct v; try done. cbn.
  destruct (String.eqb_spec s "python") as [->|]; [done|].
  destruct (String.eqb_spec s "process") as [->|]; [done|].
  destruct (String.eqb_spec s "http") as [->|]; done.
Qed.

Lemma raise_when_returns (cond : bool) (e : exn) :
  raise_when cond e = Returned tt <-> cond = false.
Proof. destruct cond; cbn; split; congruence. Qed.

(** The checks of lines 73-92, as one condition. *)
Lemma check_declared_fields_accepts (activity : Activity) (pt : value) :
  check_declared_fields activity pt = Returned tt
  <-> truthy (dict_get activity "name") = true
      /\ number_or_absent (dict_get activity "timeout") = true
      /\ pauses_shape (dict_get activity "pauses") = true
      /\ background_typed activity = true
      /\ (if eq_str pt "python" then validate_python_activity activity
          else if eq_str pt "process" then validate_process_activity activity
          else if eq_str pt "http" then validate_http_activity activity
          else Returned tt) = Returned tt.
Proof.
  unfold Validation.check_declared_fields, number_or_absent, pauses_shape,
    background_typed.
  destruct (truthy (dict_get activity "name")); cbn; [|split; [done|]; by intros []].
  destruct (dict_get activity "timeout") as [| | | | |]; cbn;
    try (split; [done|]; by intros (_ & ? & _));
  (destruct (dict_get activity "pauses") as [| | | | |pauses]; cbn;
    try (split; [done|]; by intros (_ & _ & ? & _));
   [|unfold number_or_absent;
     destruct (dict_get pauses "before") as [| | | | |]; cbn;
       try (split; [done|]; by intros (_ & _ & ? & _));
     (destruct (dict_get pauses "after") as [| | | | |]; cbn;
       try (split; [done|]; by intros (_ & _ & ? & _)))];
   (destruct (activity !! "background") as [[| | | | |]|]; cbn;
      try (split; [done|]; by intros (_ & _ & _ & ? & _));
    (split; [by intros ->|by intros (_ & _ & _ & _ & ?)]))).
Qed.

Lemma ensure_accepts_iff (activity : Activity) :
  dict_get activity "ref" = VNone ->
  ensure_activity_is_valid activity = Returned tt
  <-> full_definition_shape activity = true
      /\ provider_validator activity = Returned tt.
Proof.
  intros Href.
  unfold Validation.ensure_activity_is_valid, full_definition_shape,
    matching_validator, provider_type_of.
  rewrite Href. cbn [is_not_none].
  destruct (truthy (VDict activity)) eqn:Hnonempty; cbn.
  2:{ split; [done|]. intros [Hshape _]. exfalso.
      cbn in Hnonempty. case_bool_decide as Hempty; [|done]. subst activity.
      by rewrite (dict_get_empty "type") in Hshape. }
  destruct (truthy (dict_get activity "type")) eqn:Htype; cbn.
  2:{ split; [done|]. intros [Hshape _]. exfalso.
      apply andb_true_iff in Hshape as [Hshape _].
      apply andb_true_iff in Hshape as [Hshape _].
      apply andb_true_iff in Hshape as [Hshape _].
      apply andb_true_iff in Hshape as [Hshape _].
      apply andb_true_iff in Hshape as [Hshape _].
      rewrite (in_strs_truthy_type _ Hshape) in Htype. done. }
  destruct (in_strs (dict_get activity "type") ["probe"; "action"]); cbn;
    [|split; [done|]; by intros []].
  destruct (truthy (dict_get activity "name")) eqn:Hname; cbn;
    [|split; [done|]; by intros []].
  destruct (dict_get activity "provider") as [| | | | |provider] eqn:Hprovider;
    cbn; try (split; [done|]; by intros []).
  - destruct b; cbn; split; try done; by intros [].
  - destruct (negb (n =? 0)); cbn; split; try done; by intros [].
  - destruct (negb (String.eqb s "")); cbn; split; try done; by intros [].
  - destruct l; cbn; split; try done; by intros [].
  - unfold check_provider_type. cbn.
    case_bool_decide as Hempty; cbn.
    { split; [done|]. subst provider. rewrite (dict_get_empty "type").
      by intros []. }
    destruct (in_strs (dict_get provider "type") ["python"; "process"; "http"])
      eqn:Hpt; cbn.
    2:{ destruct (truthy (dict_get provider "type")); cbn;
          split; try done; by intros []. }
    rewrite (in_strs_truthy_provider _ Hpt). cbn.
    rewrite check_declared_fields_accepts, Hname, !andb_true_iff. tauto.
Qed.

(** X1.  A full definition (no [ref], or a null one) is accepted exactly
    when its type is [probe] or [action], it has a name, its provider is
    a mapping of type [python], [process] or [http], its timeout, if any,
    is a number, its pauses, if any, are a mapping of numbers, its
    background, if present, is a boolean, and the validator of its
    provider accepts it. *)
Theorem full_definition_accepted_iff (activity : Activity) :
  dict_get activity "ref" = VNone ->
  ensure_activity_is_valid activity = Returned tt
  <-> in_strs (dict_get activity "type") ["probe"; "action"] = true
      /\ truthy (dict_get activity "name") = true
      /\ (exists provider : gmap string value,
            dict_get activity "provider" = VDict provider
            /\ in_strs (dict_get provider "type")
                 ["python"; "process"; "http"] = true)
      /\ number_or_absent (dict_get activity "timeout") = true
      /\ pauses_shape (dict_get activity "pauses") = true
      /\ background_typed activity = true
      /\ provider_validator activity = Returned tt.
Proof.
  intros Href. rewrite (ensure_accepts_iff activity Href).
  unfold full_definition_shape. rewrite !andb_true_iff.
  split.
  - intros ((((((Htype & Hname) & Hprovider) & Htimeout) & Hpauses)
             & Hbackground) & Hvalidator).
    repeat (split; [done|]).
    split; [|done].
    destruct (dict_get activity "provider") as [| | | | |provider];
      try discriminate.
    by exists provider.
  - intros (Htype & Hname & (provider & Hprovider & Hkind) & Htimeout
            & Hpauses & Hbackground & Hvalidator).
    rewrite Hprovider. done.
Qed.

(** X2.  The docstring's "in all failing cases, raises InvalidActivity"
    holds when the provider is a mapping (or nothing that counts), the
    pauses are a mapping (or null) and the provider validators themselves
    raise nothing else. *)
Theorem failures_are_InvalidActivity (activity : Activity) (e : exn) :
  mapping_or_falsy (dict_get activity "provider") = true ->
  mapping_or_none (dict_get activity "pauses") = true ->
  (forall validate a x,
      validate ∈ [validate_python_activity; validate_process_activity;
                  validate_http_activity] ->
      validate a = Raised x -> is_InvalidActivity x = true) ->
  ensure_activity_is_valid activity = Raised e ->
  is_InvalidActivity e = true.
Proof.
  intros Hprovider Hpauses Hvalidators.
  assert (Hpy := Hvalidators validate_python_activity activity).
  assert (Hpr := Hvalidators validate_process_activity activity).
  assert (Hht := Hvalidators validate_http_activity activity).
  unfold Validation.ensure_activity_is_valid, check_provider_type,
    Validation.check_declared_fields.
  destruct (truthy (VDict activity)); cbn; [|by intros [= <-]].
  destruct (is_not_none (dict_get activity "ref")).
  { destruct (_ || _); cbn; [by intros [= <-]|done]. }
  destruct (truthy (dict_get activity "type")); cbn; [|by intros [= <-]].
  destruct (in_strs (dict_get activity "type") _); cbn; [|by intros [= <-]].
  destruct (truthy (dict_get activity "name")); cbn; [|by intros [= <-]].
  destruct (dict_get activity "provider") as [| | | | |provider]; cbn;
    cbn in Hprovider; rewrite ?Hprovider; cbn; try by intros [= <-].
  case_bool_decide; cbn; [by intros [= <-]|].
  destruct (truthy (dict_get provider "type")); cbn; [|by intros [= <-]].
  destruct (in_strs (dict_get provider "type") _); cbn; [|by intros [= <-]].
  destruct (is_not_none (dict_get activity "timeout")
            && negb (isinstance_number (dict_get activity "timeout")));
    cbn; [by intros [= <-]|].
  destruct (dict_get activity "pauses") as [| | | | |pauses]; cbn;
    try discriminate Hpauses.
  - destruct (activity !! "background") as [background|]; cbn.
    + destruct (isinstance_bool background); cbn; [|by intros [= <-]].
      repeat case_match; try done; intros Hx;
        (apply Hpy in Hx || apply Hpr in Hx || apply Hht in Hx); try done;
        set_solver.
    + repeat case_match; try done; intros Hx;
        (apply Hpy in Hx || apply Hpr in Hx || apply Hht in Hx); try done;
        set_solver.
  - destruct (is_not_none (dict_get pauses "before")
              && negb (isinstance_number (dict_get pauses "before")));
      cbn; [by intros [= <-]|].
    destruct (is_not_none (dict_get pauses "after")
              && negb (isinstance_number (dict_get pauses "after")));
      cbn; [by intros [= <-]|].
    destruct (activity !! "background") as [background|]; cbn.
    + destruct (isinstance_bool background); cbn; [|by intros [= <-]].
      repeat case_match; try done; intros Hx;
        (apply Hpy in Hx || apply Hpr in Hx || apply Hht in Hx); try done;
        set_solver.
    + repeat case_match; try done; intros Hx;
        (apply Hpy in Hx || apply Hpr in Hx || apply Hht in Hx); try done;
        set_solver.
Qed.

(** X3.  That docstring fails when the provider of a full definition is
    something that counts and is no mapping (a string, a list, a number):
    the validation then stops on [AttributeError], not on
    [InvalidActivity]. *)
Theorem provider_that_is_no_mapping (activity : Activity) :
  dict_get activity "ref" = VNone ->
  in_strs (dict_get activity "type") ["probe"; "action"] = true ->
  truthy (dict_get activity "name") = true ->
  mapping_or_falsy (dict_get activity "provider") = false ->
  ensure_activity_is_valid activity = Raised (AttributeError "get").
Proof.
  intros Href Htype Hname Hshape.
  assert (Hprovider : truthy (dict_get activity "provider") = true).
  { destruct (dict_get activity "provider"); cbn in *; try done;
      by apply negb_false_iff in Hshape. }
  unfold Validation.ensure_activity_is_valid, check_provider_type.
  assert (Hnonempty : truthy (VDict activity) = true).
  { cbn. case_bool_decide as Hempty; [|done]. subst activity.
    by rewrite (dict_get_empty "name") in Hname. }
  rewrite Hnonempty, Href, (in_strs_truthy_type _ Htype), Htype, Hname,
    Hprovider. cbn.
  by destruct (dict_get activity "provider").
Qed.


End ValidationExtras.
End ValidationExtras.

Module ExecutorExtras.
Import Executor ExecutorFacts.

Section ExecutorExtras.

Context {E : Type}.
#[local] Abbreviation world := (@world E).
#[local] Abbreviation emits := (@emits E).

Variable lookup_activity : value -> option Activity.
Variable controls :
  string -> Experiment -> Activity -> value -> value -> @control_manager E.
Variable run_python_activity : Activity -> value -> value -> @external E value.
Variable run_process_activity : Activity -> value -> value -> @external E value.
Variable run_http_activity : Activity -> value -> value -> @external E value.
Variable isoformat : Z -> string.
Variable format_exception : exn -> value.
Variable validate_python_activity : Activity -> outcome unit.
Variable validate_process_activity : Activity -> outcome unit.
Variable validate_http_activity : Activity -> outcome unit.

#[local] Abbreviation run_activity :=
  (run_activity run_python_activity run_process_activity run_http_activity).
#[local] Abbreviation try_except :=
  (try_except run_python_activity run_process_activity run_http_activity
     format_exception).
#[local] Abbreviation try_activity :=
  (try_activity run_python_activity run_process_activity run_http_activity
     isoformat format_exception).
#[local] Abbreviation execute_activity_block :=
  (execute_activity_block run_python_activity run_process_activity
     run_http_activity isoformat format_exception).
#[local] Abbreviation execute_activity :=
  (execute_activity lookup_activity controls run_python_activity
     run_process_activity run_http_activity isoformat format_exception).
#[local] Abbreviation runner_of :=
  (runner_for run_python_activity run_process_activity run_http_activity).

(** The dispatch of [run_activity], in one equation. *)
Lemma run_activity_dispatch (activity provider : gmap string value)
    (kind : string)
    (runner : Activity -> value -> value -> @external E value)
    (configuration secrets : value) (w : world) :
  activity !! "provider" = Some (VDict provider) ->
  provider !! "type" = Some (VStr kind) ->
  runner_of kind = Some runner ->
  run_activity activity configuration secrets w
  = (result (runner activity configuration secrets (env w) (now w)),
     World
       (now w
        + Z.of_N (elapsed (runner activity configuration secrets (env w)
                             (now w))))
       (env_after (runner activity configuration secrets (env w) (now w)))
       (trace w
        ++ EvProvider kind activity
             (elapsed (runner activity configuration secrets (env w) (now w)))
        :: failure_log
             (result (runner activity configuration secrets (env w)
                        (now w))))).
Proof.
  intros Hprovider Htype Hrunner.
  unfold Executor.run_activity, run_activity_try, mbind, M_bind, lift,
    py_getitem.
  rewrite Hprovider, Htype. cbn [eq_str].
  unfold runner_for in Hrunner.
  destruct (String.eqb_spec kind "python") as [->|Hpy];
    [injection Hrunner as <-|
     destruct (String.eqb_spec kind "process") as [->|Hpr];
       [injection Hrunner as <-|
        destruct (String.eqb_spec kind "http") as [->|Hht];
          [injection Hrunner as <-|discriminate]]];
    unfold call; cbn;
    (destruct (result _) as [v|e]; cbn;
       [by rewrite app_nil_r || done
       |destruct (is_Exception e); cbn; by rewrite <- ?app_assoc]).
Qed.

(** X4.  When the provider of an activity is a mapping whose type is
    [python], [process] or [http], [run_activity] calls the runner of that
    type, once, and hands its answer through as it is, value or error; the
    clock moves by the time of the call, and the only other trace is the
    debug line logged when an [Exception] went through. *)
Theorem run_activity_hands_the_answer_through
    (activity provider : gmap string value) (kind : string)
    (runner : Activity -> value -> value -> @external E value)
    (configuration secrets : value) (w : world) :
  activity !! "provider" = Some (VDict provider) ->
  provider !! "type" = Some (VStr kind) ->
  runner_of kind = Some runner ->
  let answer := runner activity configuration secrets (env w) (now w) in
  let after := (run_activity activity configuration secrets w).2 in
  (run_activity activity configuration secrets w).1 = result answer
  /\ now after = now w + Z.of_N (elapsed answer)
  /\ env after = env_after answer
  /\ trace after
     = trace w ++ EvProvider kind activity (elapsed answer)
         :: failure_log (result answer).
Proof.
  intros Hprovider Htype Hrunner answer after. unfold after.
  by rewrite (run_activity_dispatch _ _ _ _ _ _ _ Hprovider Htype Hrunner).
Qed.

(** X5.  When the provider type is none of the three, no branch of
    [run_activity] binds [result]: the call ends on [UnboundLocalError],
    raised outside the [try], so nothing is logged and no runner is
    called. *)
Theorem run_activity_unknown_provider_type
    (activity provider : gmap string value) (provider_type : value)
    (configuration secrets : value) (w : world) :
  activity !! "provider" = Some (VDict provider) ->
  provider !! "type" = Some provider_type ->
  in_strs provider_type ["python"; "process"; "http"] = false ->
  run_activity activity configuration secrets w
  = (Raised (OtherError "UnboundLocalError"), w).
Proof.
  intros Hprovider Htype Hnone.
  unfold Executor.run_activity, run_activity_try, mbind, M_bind, lift,
    py_getitem.
  rewrite Hprovider, Htype. unfold in_strs in Hnone. cbn in Hnone.
  apply orb_false_iff in Hnone as [-> Hnone].
  apply orb_false_iff in Hnone as [-> Hnone].
  apply orb_false_iff in Hnone as [-> _]. done.
Qed.

(** X6.  An activity without provider, or with a provider mapping without
    type, makes [run_activity] raise [KeyError]; the error is caught by
    [except Exception], logged, and raised again; no runner is called. *)
Theorem run_activity_missing_provider (activity : Activity)
    (configuration secrets : value) (w : world) :
  (activity !! "provider" = None ->
   run_activity activity configuration secrets w
   = (Raised (KeyError "provider"),
      World (now w) (env w) (trace w ++ [EvLog Debug "Activity failed" []])))
  /\ (forall provider : gmap string value,
        activity !! "provider" = Some (VDict provider) ->
        provider !! "type" = None ->
        run_activity activity configuration secrets w
        = (Raised (KeyError "type"),
           World (now w) (env w)
             (trace w ++ [EvLog Debug "Activity failed" []]))).
Proof.
  split.
  - intros Hprovider.
    unfold Executor.run_activity, run_activity_try, mbind, M_bind, lift,
      py_getitem. by rewrite Hprovider.
  - intros provider Hprovider Htype.
    unfold Executor.run_activity, run_activity_try, mbind, M_bind, lift,
      py_getitem. by rewrite Hprovider, Htype.
Qed.

Lemma in_strs_inv (v : value) (names : list string) :
  in_strs v names = true -> exists name, v = VStr name /\ name ∈ names.
Proof.
  unfold in_strs. intros Hin.
  apply existsb_exists in Hin as (name & Hname & Heq).
  destruct v; try done. cbn in Heq. apply String.eqb_eq in Heq. subst.
  exists name. split; [done|]. by apply list_elem_of_In.
Qed.

Lemma dict_get_dict (d inner : gmap string value) (k : string) :
  dict_get d k = VDict inner -> d !! k = Some (VDict inner).
Proof. unfold dict_get. destruct (d !! k); cbn; [by intros ->|done]. Qed.

Lemma dict_get_str (d : gmap string value) (k s : string) :
  dict_get d k = VStr s -> d !! k = Some (VStr s).
Proof. unfold dict_get. destruct (d !! k); cbn; [by intros ->|done]. Qed.

(** A validated full definition names a provider the dispatch knows. *)
Lemma validated_provider (activity : Activity) :
  dict_get activity "ref" = VNone ->
  Validation.ensure_activity_is_valid validate_python_activity
    validate_process_activity validate_http_activity activity = Returned tt ->
  exists (provider : gmap string value) (kind : string)
         (runner : Activity -> value -> value -> @external E value),
    activity !! "provider" = Some (VDict provider)
    /\ provider !! "type" = Some (VStr kind)
    /\ kind ∈ ["python"; "process"; "http"]
    /\ provider_type_of activity = VStr kind
    /\ runner_of kind = Some runner.
Proof.
  intros Href Hvalid.
  apply (ValidationExtras.ensure_accepts_iff _ _ _ _ Href) in Hvalid
    as [Hshape _].
  unfold full_definition_shape in Hshape. rewrite !andb_true_iff in Hshape.
  destruct Hshape as (((((_ & _) & Hprovider) & _) & _) & _).
  destruct (dict_get activity "provider") as [| | | | |provider] eqn:Hp;
    try done.
  destruct (in_strs_inv _ _ Hprovider) as (kind & Hkind & Hin).
  assert (Hrunner : exists runner, runner_of kind = Some runner).
  { unfold runner_for. set_unfold.
    destruct Hin as [->|[->|[->|[]]]]; cbn; eauto. }
  destruct Hrunner as [runner Hrunner]. exists provider, kind, runner.
  split; [by apply dict_get_dict|]. split; [by apply dict_get_str|].
  split; [done|]. split; [by unfold provider_type_of; rewrite Hp|]. done.
Qed.

(** X7.  [run_activity] "assumes the activity is valid": for a full
    definition that [ensure_activity_is_valid] accepted, the dispatch
    always reaches the runner of the declared provider type and hands its
    answer back; none of the errors of X5 and X6 can occur. *)
Theorem validated_activity_reaches_its_runner (activity : Activity)
    (configuration secrets : value) (w : world) :
  dict_get activity "ref" = VNone ->
  Validation.ensure_activity_is_valid validate_python_activity
    validate_process_activity validate_http_activity activity = Returned tt ->
  exists (kind : string)
         (runner : Activity -> value -> value -> @external E value),
    kind ∈ ["python"; "process"; "http"]
    /\ provider_type_of activity = VStr kind
    /\ runner_of kind = Some runner
    /\ (run_activity activity configuration secrets w).1
       = result (runner activity configuration secrets (env w) (now w)).
Proof.
  intros Href Hvalid.
  destruct (validated_provider activity Href Hvalid)
    as (provider & kind & runner & Hp & Hkind & Hin & Htype & Hrunner).
  exists kind, runner. split; [done|]. split; [done|]. split; [done|].
  by rewrite (run_activity_dispatch _ _ _ _ _ _ _ Hp Hkind Hrunner).
Qed.

(** The block of a runnable activity whose dispatch returns, or that is
    run dry: the run is marked as succeeded and handed over. *)
Lemma execute_activity_block_returning (activity : Activity)
    (configuration secrets : value) (dry : bool) (output : value)
    (w : world) :
  runnable activity = true ->
  (if dry then output = VNone
   else forall w1,
     (run_activity activity configuration secrets w1).1 = Returned output) ->
  exists (run : Run) (w' : world),
    execute_activity_block activity configuration secrets dry w
    = (Returned run, w')
    /\ run !! "status" = Some (VStr "succeeded")
    /\ run !! "output" = Some output
    /\ run !! "activity" = Some (VDict activity)
    /\ run !! "exception" = None.
Proof.
  intros Hrunnable Hreturns.
  destruct (runnable_inv _ Hrunnable)
    as (t & pauses & Htype & Hpauses & Hb & Ha).
  unfold Executor.execute_activity_block, mbind, M_bind. rewrite Hpauses.
  destruct (pause_before_returns pauses dry w Hb) as [w1 ->].
  destruct (announce_returns activity t w1 Htype) as [w2 ->].
  cbn [utcnow read_clock].
  unfold leave_try, Executor.try_activity, Executor.try_except.
  destruct dry; cbn [negb].
  - subst output. cbn [mret M_ret is_not_none logger emit snd read_clock].
    match goal with
    | |- context [pause_after (VDict pauses) false true ?w5] =>
        destruct (pause_after_returns pauses true w5 Ha) as [w6 ->]
    end.
    eexists _, _. split; [reflexivity|]. by simplify_map_eq.
  - match goal with
    | |- context [run_activity activity configuration secrets ?w3] =>
        specialize (Hreturns w3);
        destruct (run_activity activity configuration secrets w3)
          as [o w4] eqn:Hrun
    end.
    cbn in Hreturns. subst o. cbn [read_clock].
    match goal with
    | |- context [pause_after (VDict pauses) false false ?w5] =>
        destruct (pause_after_returns pauses false w5 Ha) as [w6 ->]
    end.
    eexists _, _. split; [reflexivity|]. by simplify_map_eq.
Qed.


(** X9.  A dry run of a full, runnable activity, with control hooks that
    return and keep the documents, returns a run with status [succeeded]
    and output [None]; and in dry mode the call is the same whatever the
    three provider runners are: none of them is consulted. *)
Theorem dry_run_is_recorded_as_succeeded (experiment : Experiment)
    (activity : Activity) (configuration secrets : value) (w : world) :
  truthy (dict_get activity "ref") = false ->
  runnable activity = true ->
  hooks_keep_documents
    (controls "activity" experiment activity configuration secrets)
    activity ->
  (exists (run : Run) (w' : world),
      execute_activity experiment activity configuration secrets true w
      = (Returned run, w')
      /\ run !! "activity" = Some (VDict activity)
      /\ run !! "status" = Some (VStr "succeeded")
      /\ run !! "output" = Some VNone
      /\ run !! "exception" = None)
  /\ forall run_python_activity' run_process_activity' run_http_activity'
       : Activity -> value -> value -> @external E value,
       Executor.execute_activity lookup_activity controls
         run_python_activity' run_process_activity' run_http_activity'
         isoformat format_exception experiment activity configuration
         secrets true w
       = execute_activity experiment activity configuration secrets true w.
Proof.
  intros Href Hrunnable (Henter & Hexit & _). split; [|done].
  unfold Executor.execute_activity. rewrite (resolve_full _ _ Href).
  unfold call at 1. rewrite Henter.
  match goal with
  | |- context [execute_activity_block activity configuration secrets true
                  ?w1] =>
      destruct (execute_activity_block_returning activity configuration
                  secrets true VNone w1 Hrunnable eq_refl)
        as (run & w2 & -> & Hstatus & Houtput & Hactivity & Hexception)
  end.
  unfold call. rewrite Hexit. by eexists _, _.
Qed.

(** X10.  Executing a reference is executing the activity it names: when
    the index finds a full definition under the name, the reference and
    the definition run alike, and the run holds the definition. *)
Theorem reference_runs_as_its_definition (experiment : Experiment)
    (activity found : Activity) (configuration secrets : value) (dry : bool)
    (w : world) :
  truthy (dict_get activity "ref") = true ->
  lookup_activity (dict_get activity "ref") = Some found ->
  truthy (VDict found) = true ->
  truthy (dict_get found "ref") = false ->
  execute_activity experiment activity configuration secrets dry w
  = execute_activity experiment found configuration secrets dry w.
Proof.
  intros Href Hfound Hfull Hdefinition.
  unfold Executor.execute_activity.
  rewrite (resolve_full _ _ Hdefinition).
  unfold resolve. by rewrite Href, Hfound, Hfull.
Qed.

(** X11.  [pauses: null] goes through the validation (the guard there is
    [pauses is not None]), but [execute_activity] reads it with
    [activity.get("pauses", {})], gets [None] and fails on
    [pauses.get("before")]: [AttributeError], inside the control scope,
    before anything is logged or run, in dry mode as well. *)
Theorem null_pauses_break_the_execution (experiment : Experiment)
    (activity : Activity) (configuration secrets : value) (dry : bool)
    (w : world) :
  activity !! "pauses" = Some VNone ->
  truthy (dict_get activity "ref") = false ->
  hooks_keep_documents
    (controls "activity" experiment activity configuration secrets)
    activity ->
  pauses_shape (dict_get activity "pauses") = true
  /\ exists (t_in t_out : N) (w' : world),
       execute_activity experiment activity configuration secrets dry w
       = (Raised (AttributeError "get"), w')
       /\ trace w' = trace w ++ [EvControlsEnter "activity" t_in;
                                 EvControlsExit "activity" None t_out].
Proof.
  intros Hpauses Href (Henter & _ & Hexit).
  split; [unfold dict_get; by rewrite Hpauses|].
  unfold Executor.execute_activity. rewrite (resolve_full _ _ Href).
  unfold call at 1. rewrite Henter.
  unfold Executor.execute_activity_block, dict_get_default.
  rewrite Hpauses. change (default (VDict ∅) (Some VNone)) with VNone.
  unfold pause_before, mbind, M_bind, lift, py_get, call. rewrite Hexit.
  eexists _, _, _. split; [reflexivity|]. cbn. by rewrite <- app_assoc.
Qed.



Lemma emits_sleep_accepted (P : event -> bool) (secs : value) :
  (forall n, 0 <= n -> P (EvSleep n) = true) ->
  emits P (time_sleep secs).
Proof.
  intros HP w. unfold time_sleep.
  destruct (sleep_seconds secs) as [n|e] eqn:Hsecs; cbn.
  - assert (Hn : 0 <= n).
    { destruct secs as [|[]|m| | |]; cbn in Hsecs; try discriminate;
        try (inversion Hsecs; lia).
      destruct (m <? 0) eqn:Hm; [discriminate|]. inversion Hsecs. lia. }
    exists [EvSleep n]. cbn. rewrite (HP n Hn). repeat split; lia.
  - exists []. rewrite app_nil_r. cbn. repeat split; lia.
Qed.

Lemma pause_before_emits_accepted (P : event -> bool) (pauses : value)
    (dry : bool) :
  block_events P -> emits P (pause_before pauses dry).
Proof.
  intros (HPlog & _ & _ & HPsleep). unfold pause_before.
  apply emits_bind; [apply emits_lift|]. intros p.
  destruct (truthy p); [|apply emits_ret].
  apply emits_bind; [by apply emits_logger|]. intros _.
  destruct dry; cbn; [apply emits_ret | by apply emits_sleep_accepted].
Qed.

Lemma pause_after_emits_accepted (P : event -> bool) (pauses : value)
    (interrupted dry : bool) :
  block_events P -> emits P (pause_after pauses interrupted dry).
Proof.
  intros (HPlog & _ & _ & HPsleep). unfold pause_after.
  apply emits_bind; [apply emits_lift|]. intros p.
  destruct (truthy p && negb interrupted); [|apply emits_ret].
  apply emits_bind; [by apply emits_logger|]. intros _.
  destruct dry; cbn; [apply emits_ret | by apply emits_sleep_accepted].
Qed.

Lemma try_activity_emits_accepted (P : event -> bool) (activity : Activity)
    (configuration secrets : value) (dry : bool) (pauses : value) (start : Z)
    (run : Run) :
  block_events P ->
  emits P
    (try_activity activity configuration secrets dry pauses start run).
Proof.
  intros HP w. unfold Executor.try_activity.
  destruct (try_except_emits run_python_activity run_process_activity
              run_http_activity format_exception activity configuration
              secrets dry run w) as (mid & Hmid & Hpmid & Hnmid).
  destruct (try_except activity configuration secrets dry run w)
    as [[run1 p1] w1]. cbn in Hmid, Hnmid. cbn [read_clock fst snd].
  destruct (pause_after_emits_accepted P pauses false dry HP
              (World (now w1) (env w1) (trace w1 ++ [EvUtcnow (now w1)])))
    as (post & Hpost & Hppost & Hnpost).
  exists (mid ++ [EvUtcnow (now w1)] ++ post).
  destruct HP as (HPlog & HPclock & HPprovider & _).
  assert (HPmid : forallb P mid = true).
  { refine (forallb_weaken _ P _ _ Hpmid). intros ev.
    destruct dry, ev; cbn; try discriminate; intros _;
      first [apply HPlog | apply HPprovider]. }
  destruct (pause_after pauses false dry _) as [[u|e] w3];
    cbn [fst snd] in Hpost, Hnpost |- *;
    rewrite Hpost, Hmid, !forallb_app, !trace_time_app, HPmid, Hppost;
    cbn [trace now]; rewrite <- !app_assoc; cbn; rewrite HPclock;
    repeat split; try done; cbn in Hnpost; lia.
Qed.

Lemma execute_activity_block_emits_accepted (P : event -> bool)
    (activity : Activity) (configuration secrets : value) (dry : bool) :
  block_events P ->
  emits P (execute_activity_block activity configuration secrets dry).
Proof.
  intros HP. unfold Executor.execute_activity_block.
  apply emits_bind; [by apply pause_before_emits_accepted|].
  intros _. apply emits_bind.
  { eapply emits_weaken; [|apply announce_emits].
    intros [] Hlog; try discriminate. apply HP. }
  intros _. apply emits_bind; [apply emits_utcnow, HP|].
  intros start. by apply leave_try_emits, try_activity_emits_accepted.
Qed.

Lemma of_block_events : block_events of_block.
Proof. repeat split; try done. intros n Hn. cbn. lia. Qed.

Lemma block_has_no_control_event (evs : list event) :
  forallb of_block evs = true ->
  forallb (fun ev => negb (is_controls ev)) evs = true.
Proof. apply forallb_weaken. by intros []. Qed.

(** X14.  Whatever the activity, the hooks and the provider do, a control
    scope that [execute_activity] has entered is left exactly once, at the
    very end: the trace of a call is empty (the reference was not found),
    or the opening alone (the before hooks raised), or an opening and a
    closing around the events of the block, none of which is the
    control's, a submission to the pool or a sleep of negative length.  A
    scope closed without state means the call raised. *)
Theorem control_scope_is_always_closed (experiment : Experiment)
    (activity : Activity) (configuration secrets : value) (dry : bool)
    (w : world) :
  exists evs : list event,
    trace (execute_activity experiment activity configuration secrets dry
             w).2 = trace w ++ evs
    /\ ((evs = []
         /\ exists e,
              execute_activity experiment activity configuration secrets dry
                w = (Raised e, w))
        \/ (exists (t_in : N) (e : exn),
               evs = [EvControlsEnter "activity" t_in]
               /\ (execute_activity experiment activity configuration
                     secrets dry w).1 = Raised e)
        \/ (exists (t_in : N) (mid : list event) (state : option value)
                   (t_out : N),
               evs = EvControlsEnter "activity" t_in :: mid
                       ++ [EvControlsExit "activity" state t_out]
               /\ forallb of_block mid = true
               /\ forallb (fun ev => negb (is_controls ev)) mid = true
               /\ (state = None ->
                   exists e,
                     (execute_activity experiment activity configuration
                        secrets dry w).1 = Raised e))).
Proof.
  unfold Executor.execute_activity.
  destruct (resolve lookup_activity activity) as [resolved|e].
  2:{ exists []. rewrite app_nil_r. split; [done|]. left.
      split; [done|]. by exists e. }
  unfold call.
  destruct (result (cm_enter _ (env w) (now w))) as [entered|e].
  2:{ eexists. split; [reflexivity|]. right. left.
      eexists _, e. split; reflexivity. }
  match goal with
  | |- context [execute_activity_block entered configuration secrets dry
                  ?w1] =>
      destruct (execute_activity_block_emits_accepted
                  of_block entered configuration
                  secrets dry of_block_events w1)
        as (mid & Hmid & HPmid & _);
      destruct (execute_activity_block entered configuration secrets dry w1)
        as [[run|e] w2]
  end; cbn in Hmid.
  - eexists. cbn. rewrite Hmid, <- !app_assoc. split; [reflexivity|].
    right. right. eexists _, mid, _, _. split; [reflexivity|].
    split; [done|]. split; [by apply block_has_no_control_event|].
    discriminate.
  - destruct (result (cm_exit_raising _ entered e (env w2) (now w2)))
      as [u|e'] eqn:Hexit; cbn;
      (eexists; rewrite Hmid, <- !app_assoc; split; [reflexivity|];
       right; right; eexists _, mid, _, _; split; [reflexivity|];
       split; [done|]; split; [by apply block_has_no_control_event|];
       eauto).
Qed.

Lemma pause_before_time (activity : Activity) (w w1 : world) :
  pause_before (dict_get_default activity "pauses" (VDict ∅)) false w
  = (Returned tt, w1) ->
  now w1 = now w + pause_seconds activity "before".
Proof.
  unfold pause_before, pause_seconds, mbind, M_bind, lift, py_get.
  destruct (dict_get_default activity "pauses" (VDict ∅))
    as [| | | | |pauses]; try discriminate.
  destruct (dict_get pauses "before") as [|[]|n|s|l|d]; cbn;
    try (intros [= <-]; cbn; lia).
  - destruct (n =? 0) eqn:Hzero; cbn; [intros [= <-]; lia|].
    unfold time_sleep. cbn. destruct (n <? 0) eqn:Hneg; [discriminate|].
    intros [= <-]. cbn. lia.
  - destruct (String.eqb s ""); cbn; [intros [= <-]; lia|discriminate].
  - destruct l; cbn; [intros [= <-]; lia|discriminate].
  - case_bool_decide; cbn; [intros [= <-]; lia|discriminate].
Qed.

Lemma pause_after_time (activity : Activity) (w w1 : world) :
  pause_after (dict_get_default activity "pauses" (VDict ∅)) false false w
  = (Returned tt, w1) ->
  now w1 = now w + pause_seconds activity "after".
Proof.
  unfold pause_after, pause_seconds, mbind, M_bind, lift, py_get.
  destruct (dict_get_default activity "pauses" (VDict ∅))
    as [| | | | |pauses]; try discriminate.
  destruct (dict_get pauses "after") as [|[]|n|s|l|d]; cbn;
    try (intros [= <-]; cbn; lia).
  - destruct (n =? 0) eqn:Hzero; cbn; [intros [= <-]; lia|].
    unfold time_sleep. cbn. destruct (n <? 0) eqn:Hneg; [discriminate|].
    intros [= <-]. cbn. lia.
  - destruct (String.eqb s ""); cbn; [intros [= <-]; lia|discriminate].
  - destruct l; cbn; [intros [= <-]; lia|discriminate].
  - case_bool_decide; cbn; [intros [= <-]; lia|discriminate].
Qed.

Lemma dispatch_takes_time (mid : list event) :
  forallb of_dispatch mid = true -> 0 <= trace_time mid.
Proof.
  induction mid as [|ev mid IH]; [done|].
  cbn [forallb]. rewrite andb_true_iff. intros [Hev Hmid].
  change (0 <= event_time ev + trace_time mid). specialize (IH Hmid).
  destruct ev; try discriminate; cbn; lia.
Qed.

Lemma execute_activity_block_time (activity : Activity)
    (configuration secrets : value) (run : Run) (w w' : world) :
  execute_activity_block activity configuration secrets false w
  = (Returned run, w') ->
  exists d : Z,
    run !! "duration" = Some (VNum d)
    /\ 0 <= d
    /\ now w' = now w + pause_seconds activity "before" + d
                 + pause_seconds activity "after".
Proof.
  unfold Executor.execute_activity_block, mbind, M_bind.
  destruct (pause_before _ false w) as [[[]|e] wa] eqn:Hbefore;
    [|discriminate].
  apply pause_before_time in Hbefore.
  destruct (announce_emits activity wa) as (evs & _ & Hlog & Hannounce).
  destruct (announce activity wa) as [[[]|e] wb]; [|discriminate].
  cbn in Hannounce.
  destruct (dispatch_time true evs Hlog) as (_ & _ & Hzero).
  rewrite (Hzero eq_refl) in Hannounce.
  cbn [utcnow read_clock]. unfold leave_try, Executor.try_activity.
  match goal with
  | |- context [try_except activity configuration secrets false ?run0 ?w0] =>
      destruct (try_except_emits run_python_activity run_process_activity
                  run_http_activity format_exception activity configuration
                  secrets false run0 w0) as (mid & _ & Hmid & Hdispatch);
      destruct (try_except activity configuration secrets false run0 w0)
        as [[run1 pending] wc]
  end.
  cbn in Hdispatch. cbn [read_clock].
  destruct (pause_after _ false false _) as [[[]|e] wd] eqn:Hafter.
  2:{ discriminate. }
  apply pause_after_time in Hafter. cbn in Hafter.
  destruct pending; [discriminate|]. intros [= <- <-].
  exists (now wc - now wb). split; [by simplify_map_eq|].
  pose proof (dispatch_takes_time mid Hmid). split; lia.
Qed.

(** X15.  The time a real run of an activity takes is accounted for: with
    control hooks that keep the documents, a call that returns a run has
    moved the clock by the time of the two hooks, the two configured
    pauses and the duration written in the run, which is never
    negative. *)
Theorem pauses_are_slept_around_the_duration (experiment : Experiment)
    (activity : Activity) (configuration secrets : value) (run : Run)
    (w w' : world) :
  truthy (dict_get activity "ref") = false ->
  hooks_keep_documents
    (controls "activity" experiment activity configuration secrets)
    activity ->
  execute_activity experiment activity configuration secrets false w
  = (Returned run, w') ->
  exists (t_in t_out : N) (d : Z),
    run !! "duration" = Some (VNum d)
    /\ 0 <= d
    /\ now w' = now w + Z.of_N t_in + pause_seconds activity "before" + d
                 + pause_seconds activity "after" + Z.of_N t_out.
Proof.
  intros Href (Henter & Hexit & _).
  unfold Executor.execute_activity. rewrite (resolve_full _ _ Href).
  unfold call at 1. rewrite Henter.
  match goal with
  | |- context [execute_activity_block activity configuration secrets false
                  ?w1] =>
      destruct (execute_activity_block activity configuration secrets false
                  w1) as [[run0|e] w2] eqn:Hblock
  end.
  - unfold call. rewrite Hexit. intros [= <- <-].
    destruct (execute_activity_block_time _ _ _ _ _ _ Hblock)
      as (d & Hd & Hpositive & Hnow).
    cbn in Hnow |- *. eexists _, _, d. split; [done|]. split; [done|].
    rewrite Hnow. reflexivity.
  - unfold call. by destruct (result (cm_exit_raising _ _ _ _ _)).
Qed.


#[local] Abbreviation run_activities_yield :=
  (run_activities_yield lookup_activity controls run_python_activity
     run_process_activity run_http_activity isoformat format_exception).
#[local] Abbreviation next :=
  (next lookup_activity controls run_python_activity run_process_activity
     run_http_activity isoformat format_exception).
#[local] Abbreviation collect :=
  (collect lookup_activity controls run_python_activity run_process_activity
     run_http_activity isoformat format_exception).

(** X17.  An error that leaves the activity in turn ends the generator of
    [run_activities]: [next] raises it, the generator is exhausted, and
    the entries that follow are never run, however often it is asked. *)
Theorem raising_activity_ends_the_iteration (experiment : Experiment)
    (configuration secrets : value) (pool : executor) (dry : bool)
    (activity : Activity) (rest : list value) (e : exn) (w w' : world) :
  truthy (dict_get activity "background") = false ->
  execute_activity experiment activity configuration secrets dry w
  = (Raised e, w') ->
  next experiment configuration secrets pool dry
    (Looping (VDict activity :: rest)) w = (Raised e, Exhausted, w')
  /\ (forall w2 : world,
        next experiment configuration secrets pool dry Exhausted w2
        = (Returned None, Exhausted, w2))
  /\ forall fuel : nat,
       collect experiment configuration secrets pool dry (S fuel)
         (Looping (VDict activity :: rest)) w = (Some (Raised e), w').
Proof.
  intros Hforeground Hraises.
  assert (Hnext : next experiment configuration secrets pool dry
                    (Looping (VDict activity :: rest)) w
                  = (Raised e, Exhausted, w')).
  { unfold Executor.next, Executor.run_activities_yield, mbind, M_bind, lift,
      py_get. rewrite Hforeground. by rewrite Hraises. }
  split; [done|]. split; [done|]. intros fuel.
  cbn [Executor.collect]. by rewrite Hnext.
Qed.

Lemma collect_in_background (experiment : Experiment)
    (configuration secrets : value) (pool : executor) (dry : bool)
    (activities : list Activity) :
  Forall (fun a => truthy (dict_get a "background") = true) activities ->
  forall w : world,
    collect experiment configuration secrets pool dry
      (S (length activities)) (Looping (VDict <$> activities)) w
    = (Some (Returned
               ((fun a =>
                   Pending (execute_activity experiment a configuration
                              secrets dry)) <$> activities)),
       World (now w) (env w) (trace w ++ flat_map submission activities)).
Proof.
  induction 1 as [|a activities Ha _ IH]; intros w.
  - cbn. rewrite app_nil_r. by destruct w.
  - cbn [length fmap list_fmap]. 
    change (collect experiment configuration secrets pool dry
              (S (S (length activities)))
              (Looping (VDict a :: (VDict <$> activities))) w)
      with (match next experiment configuration secrets pool dry
                    (Looping (VDict a :: (VDict <$> activities))) w with
            | (Raised e, _, w) => (Some (Raised e), w)
            | (Returned None, _, w) => (Some (Returned []), w)
            | (Returned (Some it), g, w) =>
                match collect experiment configuration secrets pool dry
                        (S (length activities)) g w with
                | (Some (Returned its), w) => (Some (Returned (it :: its)), w)
                | other => other
                end
            end).
    unfold Executor.next at 1, Executor.run_activities_yield, mbind, M_bind,
      lift, py_get. rewrite Ha. cbn [logger emit mret M_ret].
    rewrite IH. cbn. by rewrite <- !app_assoc.
Qed.

Lemma collect_created (experiment : Experiment)
    (configuration secrets : value) (pool : executor) (dry : bool)
    (method : list value) (fuel : nat) (w : world) :
  dict_get experiment "method" = VList method ->
  collect experiment configuration secrets pool dry (S fuel) Created w
  = collect experiment configuration secrets pool dry (S fuel)
      (Looping method) w.
Proof.
  intros Hmethod. cbn [Executor.collect].
  assert (Hnext : next experiment configuration secrets pool dry Created w
                  = next experiment configuration secrets pool dry
                      (Looping method) w).
  { unfold Executor.next. by rewrite Hmethod. }
  by rewrite Hnext.
Qed.


(** X19.  An experiment without [method]: [run_activities] reads it with
    [experiment.get("method")], so the first [next] raises [TypeError]
    and nothing is run, whereas [get_all_activities_in_experiment] reads
    the same key with a default and takes the method as empty. *)
Theorem experiment_without_method (experiment : Experiment)
    (configuration secrets : value) (pool : executor) (dry : bool)
    (w : world) :
  experiment !! "method" = None ->
  next experiment configuration secrets pool dry
    (run_activities experiment configuration secrets pool dry) w
  = (Raised TypeError, Exhausted, w)
  /\ get_all_activities_in_experiment experiment
     = get_all_activities_in_experiment
         (<["method" := VList []]> experiment).
Proof.
  intros Hmethod. split.
  - unfold Executor.next, run_activities, dict_get. by rewrite Hmethod.
  - unfold get_all_activities_in_experiment, dict_get, dict_get_default.
    by simplify_map_eq.
Qed.

(** X20.  [get_all_activities_in_experiment] lists the probes of the
    hypothesis, then the method, then the rollbacks, each in the order
    of the document; a hypothesis that is absent, null or empty adds
    nothing. *)
Theorem all_activities_come_in_document_order (experiment : Experiment)
    (method rollbacks : list value) :
  dict_get_default experiment "method" (VList []) = VList method ->
  dict_get_default experiment "rollbacks" (VList []) = VList rollbacks ->
  (truthy (dict_get experiment "steady-state-hypothesis") = false ->
   get_all_activities_in_experiment experiment
   = Returned (method ++ rollbacks))
  /\ (forall (hypothesis : gmap string value) (probes : list value),
        dict_get experiment "steady-state-hypothesis" = VDict hypothesis ->
        hypothesis <> ∅ ->
        dict_get_default hypothesis "probes" (VList []) = VList probes ->
        get_all_activities_in_experiment experiment
        = Returned (probes ++ method ++ rollbacks)).
Proof.
  intros Hmethod Hrollbacks. split.
  - intros Hnone. unfold get_all_activities_in_experiment.
    rewrite Hnone, Hmethod, Hrollbacks. done.
  - intros hypothesis probes Hhypothesis Hfilled Hprobes.
    unfold get_all_activities_in_experiment.
    rewrite Hhypothesis, Hmethod, Hrollbacks. cbn [truthy].
    rewrite bool_decide_eq_false_2 by done. cbn [negb].
    rewrite Hprobes. cbn. by rewrite app_assoc.
Qed.

(** X21.  The defaults of [get_all_activities_in_experiment] only cover
    keys that are missing: a [method] or [rollbacks] key that is present
    with a null value makes [extend] raise [TypeError]. *)
Theorem null_sections_are_not_iterable (experiment : Experiment) :
  truthy (dict_get experiment "steady-state-hypothesis") = false ->
  (experiment !! "method" = Some VNone ->
   get_all_activities_in_experiment experiment = Raised TypeError)
  /\ (forall method : list value,
        dict_get_default experiment "method" (VList []) = VList method ->
        experiment !! "rollbacks" = Some VNone ->
        get_all_activities_in_experiment experiment = Raised TypeError).
Proof.
  intros Hnone. split.
  - intros Hmethod. unfold get_all_activities_in_experiment.
    rewrite Hnone. unfold dict_get_default. by rewrite Hmethod.
  - intros method Hmethod Hrollbacks.
    unfold get_all_activities_in_experiment.
    rewrite Hnone, Hmethod. unfold dict_get_default. by rewrite Hrollbacks.
Qed.

Lemma sleepable_number (v : value) :
  number_or_absent v = true -> not_negative v = true -> sleepable v = true.
Proof.
  unfold number_or_absent, sleepable.
  destruct v as [|b|n| | |]; cbn; try done.
  - intros _ _. by rewrite orb_true_r.
  - intros _ ->. by rewrite orb_true_r.
Qed.


End ExecutorExtras.
End ExecutorExtras.

Module ExtrasExamples.
Import Validation Executor Fixtures Scenarios ExecutorFacts ValidationExtras
  ExecutorExtras.

(** X1 on the python probe, with provider validators that accept. *)
Lemma full_definition_accepted_iff_witness :
  dict_get python_probe "ref" = VNone
  /\ (ensure_activity_is_valid accept accept accept python_probe
      = Returned tt
      <-> in_strs (dict_get python_probe "type") ["probe"; "action"] = true
          /\ truthy (dict_get python_probe "name") = true
          /\ (exists provider : gmap string value,
                dict_get python_probe "provider" = VDict provider
                /\ in_strs (dict_get provider "type")
                     ["python"; "process"; "http"] = true)
          /\ number_or_absent (dict_get python_probe "timeout") = true
          /\ pauses_shape (dict_get python_probe "pauses") = true
          /\ background_typed python_probe = true
          /\ matching_validator accept accept accept python_probe
             = Returned tt).
Proof.
  split; [vm_compute; reflexivity|].
  apply (full_definition_accepted_iff accept accept accept python_probe).
  vm_compute; reflexivity.
Defined.

Lemma accept_raises_nothing (validate : Activity -> outcome unit)
    (a : Activity) (x : exn) :
  validate ∈ [accept; accept; accept] ->
  validate a = Raised x -> is_InvalidActivity x = true.
Proof.
  intros Hin Hx.
  repeat (apply elem_of_cons in Hin as [->|Hin]; [discriminate Hx|]).
  by apply elem_of_nil in Hin.
Qed.

Lemma code_probe_is_rejected :
  ensure_activity_is_valid accept accept accept code_probe
  = Raised (InvalidActivity "unknown provider type '{type}'" [VStr "code"]).
Proof. vm_compute. reflexivity. Qed.

(** X2 on the probe whose provider is tagged [code]. *)
Lemma failures_are_InvalidActivity_witness :
  ensure_activity_is_valid accept accept accept code_probe
  = Raised (InvalidActivity "unknown provider type '{type}'" [VStr "code"])
  /\ is_InvalidActivity
       (InvalidActivity "unknown provider type '{type}'" [VStr "code"])
     = true.
Proof.
  split; [exact code_probe_is_rejected|].
  apply (failures_are_InvalidActivity accept accept accept code_probe).
  - vm_compute; reflexivity.
  - vm_compute; reflexivity.
  - exact accept_raises_nothing.
  - exact code_probe_is_rejected.
Defined.

(** X3 on a probe whose provider is the string [python]. *)
Lemma provider_that_is_no_mapping_witness :
  mapping_or_falsy (dict_get stringly_probe "provider") = false
  /\ ensure_activity_is_valid accept accept accept stringly_probe
     = Raised (AttributeError "get").
Proof.
  split; [vm_compute; reflexivity|].
  apply (provider_that_is_no_mapping accept accept accept stringly_probe);
    vm_compute; reflexivity.
Defined.

(** X4 on the python probe and the runner that answers after 3 seconds. *)
Lemma run_activity_hands_the_answer_through_witness :
  (run_activity answering answering answering python_probe VNone VNone
     world0).1 = Returned (VNum 0)
  /\ now (run_activity answering answering answering python_probe VNone
            VNone world0).2 = 103
  /\ trace (run_activity answering answering answering python_probe VNone
              VNone world0).2
     = [EvProvider "python" python_probe 3].
Proof.
  destruct (run_activity_hands_the_answer_through answering answering
              answering python_probe python_settings "python" answering
              VNone VNone world0)
    as (Hresult & Hnow & _ & Htrace);
    [vm_compute; reflexivity | reflexivity | reflexivity |].
  split; [exact Hresult|]. split; [exact Hnow|]. exact Htrace.
Defined.

(** X5 on the probe whose provider is tagged [code]. *)
Lemma run_activity_unknown_provider_type_witness :
  run_activity answering answering answering code_probe VNone VNone world0
  = (Raised (OtherError "UnboundLocalError"), world0).
Proof.
  apply (run_activity_unknown_provider_type answering answering answering
           code_probe code_settings (VStr "code") VNone VNone world0);
    vm_compute; reflexivity.
Defined.

(** X6 on a probe without provider and on one whose provider has no
    type. *)
Lemma run_activity_missing_provider_witness :
  (run_activity answering answering answering bare_probe VNone VNone
     world0).1 = Raised (KeyError "provider")
  /\ (run_activity answering answering answering untyped_probe VNone VNone
        world0).1 = Raised (KeyError "type").
Proof.
  split.
  - rewrite (proj1 (run_activity_missing_provider answering answering
                      answering bare_probe VNone VNone world0));
      [reflexivity | vm_compute; reflexivity].
  - rewrite (proj2 (run_activity_missing_provider answering answering
                      answering untyped_probe VNone VNone world0)
               untyped_settings);
      [reflexivity | vm_compute; reflexivity | vm_compute; reflexivity].
Defined.

(** X7 on the python probe. *)
Lemma validated_activity_reaches_its_runner_witness :
  ensure_activity_is_valid accept accept accept python_probe = Returned tt
  /\ exists (kind : string)
            (runner : Activity -> value -> value -> @external marks value),
       kind ∈ ["python"; "process"; "http"]
       /\ provider_type_of python_probe = VStr kind
       /\ runner_for answering failing breaking kind = Some runner
       /\ (run_activity answering failing breaking python_probe VNone VNone
             world0).1
          = result (runner python_probe VNone VNone (env world0)
                      (now world0)).
Proof.
  split; [vm_compute; reflexivity|].
  apply (validated_activity_reaches_its_runner answering failing breaking
           accept accept accept python_probe VNone VNone world0);
    vm_compute; reflexivity.
Defined.

Lemma no_controls_keep (experiment : Experiment) (activity : Activity)
    (configuration secrets : value) :
  hooks_keep_documents
    (no_controls "activity" experiment activity configuration secrets)
    activity.
Proof. by repeat split. Qed.


(** X9 on the paused probe, dry, with a runner that would break. *)
Lemma dry_run_is_recorded_as_succeeded_witness :
  runnable paused_probe = true
  /\ (exists (run : Run) (w' : @world marks),
        execute_activity no_index no_controls breaking breaking breaking
          isoformat format_exception ∅ paused_probe VNone VNone true world0
        = (Returned run, w')
        /\ run !! "activity" = Some (VDict paused_probe)
        /\ run !! "status" = Some (VStr "succeeded")
        /\ run !! "output" = Some VNone
        /\ run !! "exception" = None)
  /\ execute_activity no_index no_controls answering failing interrupted
       isoformat format_exception ∅ paused_probe VNone VNone true world0
     = execute_activity no_index no_controls breaking breaking breaking
         isoformat format_exception ∅ paused_probe VNone VNone true world0.
Proof.
  split; [vm_compute; reflexivity|].
  destruct (dry_run_is_recorded_as_succeeded no_index no_controls breaking
              breaking breaking isoformat format_exception ∅ paused_probe
              VNone VNone world0) as [Hrun Hsame].
  - vm_compute; reflexivity.
  - vm_compute; reflexivity.
  - apply no_controls_keep.
  - split; [exact Hrun|]. apply (Hsame answering failing interrupted).
Defined.

(** X10 on the reference to [probe-1], with the index that knows it. *)
Lemma reference_runs_as_its_definition_witness :
  probe_index (dict_get reference "ref") = Some python_probe
  /\ forall (dry : bool) (w : @world marks),
       execute_activity probe_index no_controls answering answering
         answering isoformat format_exception ∅ reference VNone VNone dry w
       = execute_activity probe_index no_controls answering answering
           answering isoformat format_exception ∅ python_probe VNone VNone
           dry w.
Proof.
  split; [vm_compute; reflexivity|]. intros dry w.
  apply (reference_runs_as_its_definition probe_index no_controls answering
           answering answering isoformat format_exception ∅ reference
           python_probe VNone VNone dry w);
    vm_compute; reflexivity.
Defined.

(** X11 on the python probe with [pauses: null], which the validation
    accepts. *)
Lemma null_pauses_break_the_execution_witness :
  ensure_activity_is_valid accept accept accept null_pauses_probe
  = Returned tt
  /\ exists (t_in t_out : N) (w' : @world marks),
       execute_activity no_index no_controls answering answering answering
         isoformat format_exception ∅ null_pauses_probe VNone VNone false
         world0
       = (Raised (AttributeError "get"), w')
       /\ trace w' = trace world0 ++ [EvControlsEnter "activity" t_in;
                                      EvControlsExit "activity" None t_out].
Proof.
  split; [vm_compute; reflexivity|].
  apply (null_pauses_break_the_execution no_index no_controls answering
           answering answering isoformat format_exception ∅
           null_pauses_probe VNone VNone false world0).
  - vm_compute; reflexivity.
  - vm_compute; reflexivity.
  - apply no_controls_keep.
Defined.



(** X15 on the paused probe: 5 seconds before, 3 of provider, 30 after. *)
Lemma pauses_are_slept_around_the_duration_witness :
  pause_seconds paused_probe "before" = 5
  /\ pause_seconds paused_probe "after" = 30
  /\ exists (run : Run) (w' : @world marks),
       paused_run = (Returned run, w')
       /\ exists (t_in t_out : N) (d : Z),
            run !! "duration" = Some (VNum d)
            /\ 0 <= d
            /\ now w' = now world0 + Z.of_N t_in
                        + pause_seconds paused_probe "before" + d
                        + pause_seconds paused_probe "after" + Z.of_N t_out.
Proof.
  split; [vm_compute; reflexivity|]. split; [vm_compute; reflexivity|].
  assert (Hreturns : returns paused_run = true) by (vm_compute; reflexivity).
  unfold returns in Hreturns.
  destruct paused_run as [[run|e] w'] eqn:Hrun; [|discriminate].
  exists run, w'. split; [reflexivity|].
  apply (pauses_are_slept_around_the_duration no_index no_controls answering
           answering answering isoformat format_exception ∅ paused_probe
           VNone VNone run world0 w').
  - vm_compute; reflexivity.
  - apply no_controls_keep.
  - exact Hrun.
Defined.


(** X17 on a dangling reference followed by the python probe, which is
    never run. *)
Lemma raising_activity_ends_the_iteration_witness :
  execute_activity no_index no_controls answering answering answering
    isoformat format_exception ∅ dangling VNone VNone false world0
  = (Raised not_found, world0)
  /\ next no_index no_controls answering answering answering isoformat
       format_exception ∅ VNone VNone (ThreadPoolExecutor 1) false
       (Looping [VDict dangling; VDict python_probe]) world0
     = (Raised not_found, Exhausted, world0)
  /\ forall fuel : nat,
       collect no_index no_controls answering answering answering isoformat
         format_exception ∅ VNone VNone (ThreadPoolExecutor 1) false (S fuel)
         (Looping [VDict dangling; VDict python_probe]) world0
       = (Some (Raised not_found), world0).
Proof.
  assert (Hraises :
            execute_activity no_index no_controls answering answering
              answering isoformat format_exception ∅ dangling VNone VNone
              false world0 = (Raised not_found, world0))
    by (vm_compute; reflexivity).
  split; [exact Hraises|].
  destruct (raising_activity_ends_the_iteration no_index no_controls
              answering answering answering isoformat format_exception ∅
              VNone VNone (ThreadPoolExecutor 1) false dangling
              [VDict python_probe] not_found world0 world0)
    as (Hnext & _ & Hcollect);
    [vm_compute; reflexivity | exact Hraises |].
  split; [exact Hnext | exact Hcollect].
Defined.


(** X19 on a document that only has a title. *)
Lemma experiment_without_method_witness :
  next no_index no_controls answering answering answering isoformat
    format_exception no_method VNone VNone (ThreadPoolExecutor 1) false
    (run_activities no_method VNone VNone (ThreadPoolExecutor 1) false)
    world0
  = (Raised TypeError, Exhausted, world0)
  /\ get_all_activities_in_experiment no_method
     = get_all_activities_in_experiment (<["method" := VList []]> no_method).
Proof.
  apply (experiment_without_method no_index no_controls answering answering
           answering isoformat format_exception no_method VNone VNone
           (ThreadPoolExecutor 1) false world0).
  vm_compute; reflexivity.
Defined.

(** X20 on the experiment of the long pause, without and with a
    hypothesis of one probe. *)
Lemma all_activities_come_in_document_order_witness :
  get_all_activities_in_experiment long_pause_experiment
  = Returned [VDict paused_probe; VDict python_probe]
  /\ get_all_activities_in_experiment full_experiment
     = Returned [VDict python_probe; VDict paused_probe; VDict python_probe].
Proof.
  split.
  - apply (proj1 (all_activities_come_in_document_order
                    long_pause_experiment [VDict paused_probe]
                    [VDict python_probe] ltac:(vm_compute; reflexivity)
                    ltac:(vm_compute; reflexivity))).
    vm_compute; reflexivity.
  - apply (proj2 (all_activities_come_in_document_order full_experiment
                    [VDict paused_probe] [VDict python_probe]
                    ltac:(vm_compute; reflexivity)
                    ltac:(vm_compute; reflexivity))
             full_hypothesis [VDict python_probe]).
    + vm_compute; reflexivity.
    + intros Hempty.
      assert (Hlookup : full_hypothesis !! "title" = Some (VStr "steady"))
        by (vm_compute; reflexivity).
      rewrite Hempty in Hlookup. by rewrite lookup_empty in Hlookup.
    + vm_compute; reflexivity.
Defined.

(** X21 on a document whose method is null, and on one whose rollbacks
    are. *)
Lemma null_sections_are_not_iterable_witness :
  get_all_activities_in_experiment null_method = Raised TypeError
  /\ get_all_activities_in_experiment null_rollbacks = Raised TypeError.
Proof.
  split.
  - apply (proj1 (null_sections_are_not_iterable null_method
                    ltac:(vm_compute; reflexivity))).
    vm_compute; reflexivity.
  - apply (proj2 (null_sections_are_not_iterable null_rollbacks
                    ltac:(vm_compute; reflexivity)) []).
    + vm_compute; reflexivity.
    + vm_compute; reflexivity.
Defined.


End ExtrasExamples.
